(** * House of Plants: the authentication routes

    A shallow embedding of [src/routes/auth.js] (the signup, login and logout
    handlers) and of the view-context middleware of [src/app.js].

    The handlers are written in a small promise monad over an explicit
    [World]: the User collection, the session store, the response object of
    the request being served, and a log of the calls made to the external
    collaborators (mongoose, bcryptjs, nodemailer, express-session). *)

From Stdlib Require Import String Ascii ZArith List Bool Lia.
From stdpp Require Import base option strings gmap.
Import ListNotations.

Local Open Scope string_scope.
Local Open Scope Z_scope.

(** ** JavaScript values met by the handlers *)

(** A field of [req.body]: [None] is [undefined] (the field is absent from
    the submitted form), [Some s] is the submitted string. A string of the
    model stands for a JavaScript string through its UTF-8 encoding. *)
Definition Field := option string.

(** JavaScript truthiness of a form field: [undefined] and the empty string
    are falsy, every other string is truthy. *)
Definition truthy (v : Field) : bool :=
  match v with
  | None => false
  | Some s => negb (String.eqb s "")
  end.

(** Errors, as far as the handlers tell them apart: [instanceof
    mongoose.Error.ValidationError], [error.code], [error.message]. *)
Inductive JsError :=
| TypeError (msg : string)
| ReferenceError (msg : string)
| ValidationError (msg : string)
| MongoServerError (errcode : Z) (msg : string)
| Error (msg : string).

Definition message (e : JsError) : string :=
  match e with
  | TypeError m | ReferenceError m | ValidationError m
  | MongoServerError _ m | Error m => m
  end.

Definition code (e : JsError) : option Z :=
  match e with
  | MongoServerError c _ => Some c
  | _ => None
  end.

Definition isValidationError (e : JsError) : bool :=
  match e with
  | ValidationError _ => true
  | _ => false
  end.

(** The bytes of a UTF-8 encoding: a continuation byte (10xxxxxx), and the
    lead byte of a four-byte sequence (11110xxx). *)
Definition is_continuation (c : ascii) : bool :=
  (128 <=? nat_of_ascii c)%nat && (nat_of_ascii c <? 192)%nat.

Definition is_lead4 (c : ascii) : bool := (240 <=? nat_of_ascii c)%nat.

(** The UTF-16 code units of the string a UTF-8 encoding stands for: one
    for every character of one, two or three bytes, two (a surrogate pair)
    for every character of four bytes. The second unit of a pair is counted
    at the byte that follows the lead, so that no byte counts twice. *)
Fixpoint code_units (after_lead4 : bool) (s : string) : nat :=
  match s with
  | EmptyString => 0
  | String c rest =>
      if is_continuation c then
        ((if after_lead4 then 1 else 0) + code_units false rest)%nat
      else S (code_units (is_lead4 c) rest)
  end.

(** [s.length]: JavaScript counts UTF-16 code units. *)
Definition utf16_length (s : string) : nat := code_units false s.

(** [password.length]: reading a property of [undefined] throws. *)
Definition js_length (v : Field) : JsError + Z :=
  match v with
  | None => inl (TypeError "Cannot read properties of undefined (reading 'length')")
  | Some s => inr (Z.of_nat (utf16_length s))
  end.

(** ** Data model *)

Module Location.
(** [{ type: "Point", coordinates: [longitude, latitude] }] *)
Record t := mk { type : string; coordinates : list Field }.
End Location.

Module User.
(** The document handed to [User.create] and found by [User.findOne]. The
    fields copied from the form keep the form's values. *)
Record t := mk {
  username : Field;
  password : string;
  email : Field;
  name : Field;
  berlinBorough : Field;
  location : Location.t;
  profilePicture : string }.
End User.

Module Session.
(** [req.session]: the [user] property is absent until a handler binds it. *)
Record t := mk { user : option User.t }.
End Session.

Module Body.
(** [req.body], with the fields the handlers destructure. *)
Record t := mk {
  username : Field;
  password : Field;
  email : Field;
  name : Field;
  berlinBorough : Field;
  location : Field;
  latitude : Field;
  longitude : Field }.
End Body.

Record Request := { sessionID : string; body : Body.t }.

(** Values placed in a view's context. *)
Inductive JsVal :=
| JUndefined
| JString (s : string)
| JBool (b : bool)
| JStrings (l : list string).

Definition js (v : Field) : JsVal :=
  match v with
  | None => JUndefined
  | Some s => JString s
  end.

(** What the response object has sent. *)
Inductive Response :=
| Render (status : Z) (view : string) (context : list (string * JsVal))
| Redirect (url : string).

Record Mail := {
  from : string; to : Field; subject : string; text : string; html : string }.

(** The filter of a [User.findOne] call. *)
Inductive Filter :=
| ByUsername (username : Field)
| ByUsernameOrEmail (username email : Field).

(** Calls to the external collaborators, logged in the order they are made. *)
Inductive Call :=
| FindOne (q : Filter)
| GenSalt (rounds : Z)
| Hash (plain salt : string)
| Compare (plain hashed : string)
| Create (doc : User.t)
| SendMail (m : Mail)
| Destroy (sid : string).

(** ** The world a handler runs in *)

Record World := {
  users : list User.t;              (* the User collection *)
  sessions : gmap string Session.t; (* the session store, by session id *)
  statusCode : Z;                   (* res.statusCode *)
  sent : option Response;           (* what res.render / res.redirect sent *)
  forwarded : option JsError;       (* next(err) *)
  unhandled : list JsError;         (* rejections nothing catches *)
  calls : list Call }.

Definition set_users (f : list User.t -> list User.t) (w : World) : World :=
  {| users := f w.(users); sessions := w.(sessions); statusCode := w.(statusCode);
     sent := w.(sent); forwarded := w.(forwarded); unhandled := w.(unhandled);
     calls := w.(calls) |}.

Definition set_sessions (f : gmap string Session.t -> gmap string Session.t)
    (w : World) : World :=
  {| users := w.(users); sessions := f w.(sessions); statusCode := w.(statusCode);
     sent := w.(sent); forwarded := w.(forwarded); unhandled := w.(unhandled);
     calls := w.(calls) |}.

Definition set_statusCode (c : Z) (w : World) : World :=
  {| users := w.(users); sessions := w.(sessions); statusCode := c;
     sent := w.(sent); forwarded := w.(forwarded); unhandled := w.(unhandled);
     calls := w.(calls) |}.

Definition set_sent (r : Response) (w : World) : World :=
  {| users := w.(users); sessions := w.(sessions); statusCode := w.(statusCode);
     sent := Some r; forwarded := w.(forwarded); unhandled := w.(unhandled);
     calls := w.(calls) |}.

Definition set_forwarded (e : JsError) (w : World) : World :=
  {| users := w.(users); sessions := w.(sessions); statusCode := w.(statusCode);
     sent := w.(sent); forwarded := Some e; unhandled := w.(unhandled);
     calls := w.(calls) |}.

Definition add_unhandled (e : JsError) (w : World) : World :=
  {| users := w.(users); sessions := w.(sessions); statusCode := w.(statusCode);
     sent := w.(sent); forwarded := w.(forwarded); unhandled := w.(unhandled) ++ [e];
     calls := w.(calls) |}.

Definition log (c : Call) (w : World) : World :=
  {| users := w.(users); sessions := w.(sessions); statusCode := w.(statusCode);
     sent := w.(sent); forwarded := w.(forwarded); unhandled := w.(unhandled);
     calls := w.(calls) ++ [c] |}.

(** A request arrives with a fresh response object: status 200, nothing sent. *)
Definition incoming (us : list User.t) (ss : gmap string Session.t) : World :=
  {| users := us; sessions := ss; statusCode := 200; sent := None;
     forwarded := None; unhandled := []; calls := [] |}.

(** ** Promises *)

Inductive Settled (A : Type) :=
| Resolved (a : A)
| Rejected (e : JsError).
Arguments Resolved {A} a.
Arguments Rejected {A} e.

(** A computation over the world that resolves or rejects. The synchronous
    part of a handler has the same shape: there [Rejected] is a thrown
    exception. *)
Definition Promise (A : Type) := World -> Settled A * World.

Definition resolve {A} (a : A) : Promise A := fun w => (Resolved a, w).
Definition throw {A} (e : JsError) : Promise A := fun w => (Rejected e, w).

(** [p.then(f)] *)
Definition then_ {A B} (p : Promise A) (f : A -> Promise B) : Promise B :=
  fun w =>
    match p w with
    | (Resolved a, w') => f a w'
    | (Rejected e, w') => (Rejected e, w')
    end.

(** [p.catch(h)] *)
Definition catch {A} (p : Promise A) (h : JsError -> Promise A) : Promise A :=
  fun w =>
    match p w with
    | (Resolved a, w') => (Resolved a, w')
    | (Rejected e, w') => h e w'
    end.

(** A promise that is neither returned nor awaited: the caller goes on
    whatever it settles to, and a rejection is left unhandled. *)
Definition floating {A} (p : Promise A) : Promise unit :=
  fun w =>
    match p w with
    | (Resolved _, w') => (Resolved tt, w')
    | (Rejected e, w') => (Resolved tt, add_unhandled e w')
    end.

Definition effect (f : World -> World) : Promise unit :=
  fun w => (Resolved tt, f w).

Declare Scope promise_scope.
Delimit Scope promise_scope with promise.
Notation "x <- p ;; k" := (then_ p (fun x => k))
  (at level 100, p at next level, right associativity) : promise_scope.
Notation "p ;; k" := (then_ p (fun _ => k))
  (at level 100, right associativity) : promise_scope.
Local Open Scope promise_scope.

(** ** The response object *)

(** [res.status(c)] *)
Definition res_status (c : Z) : Promise unit := effect (set_statusCode c).

(** [res.render(view, context)], with the status set so far. *)
Definition res_render (view : string) (context : list (string * JsVal)) : Promise unit :=
  fun w => (Resolved tt, set_sent (Render w.(statusCode) view context) w).

(** [res.redirect(url)] *)
Definition res_redirect (url : string) : Promise unit :=
  effect (set_sent (Redirect url)).

(** [next(err)] *)
Definition next (err : JsError) : Promise unit := effect (set_forwarded err).

(** ** The collaborators *)

(** What the outside world decides during one request: which calls reject,
    and the salt that [bcrypt.genSalt] draws. bcryptjs rejects an argument
    that is not a string, and [req.body] is handed to it unchecked: whether
    a call to it rejects is the oracle's as well. *)
Record Oracle := {
  findOne_error : option JsError;   (* User.findOne rejects *)
  genSalt_error : option JsError;   (* bcrypt.genSalt rejects *)
  salt : string;                    (* bcrypt.genSalt resolves to it *)
  hash_error : option JsError;      (* bcrypt.hash rejects *)
  compare_error : option JsError;   (* bcrypt.compare rejects *)
  create_error : option JsError;    (* User.create rejects *)
  sendMail_error : option JsError;  (* transporter.sendMail rejects *)
  destroy_error : option JsError }. (* the session store fails to destroy *)

Definition Field_eqb (a b : Field) : bool :=
  match a, b with
  | Some x, Some y => String.eqb x y
  | None, None => true
  | _, _ => false
  end.

(** Does a document satisfy [{ username }], or
    [{ $or: [{ username }, { email }] }]? *)
Definition matches (q : Filter) (u : User.t) : bool :=
  match q with
  | ByUsername n => Field_eqb (User.username u) n
  | ByUsernameOrEmail n e =>
      Field_eqb (User.username u) n || Field_eqb (User.email u) e
  end.

(** [saltRounds] *)
Definition saltRounds : Z := 10.

(** The identifiers bound where the already-taken context object is built
    (line 88 to 100): the module's [const]s, the handler's parameters, the
    fields destructured from [req.body], and the callback's parameter. *)
Definition signup_scope : list string :=
  [ "router"; "bcrypt"; "mongoose"; "saltRounds"; "User"; "BERLIN_BOROUGHS";
    "transporter"; "welcomeMessage"; "shouldNotBeLoggedIn"; "isLoggedIn";
    "req"; "res";
    "username"; "password"; "email"; "name"; "berlinBorough"; "location";
    "latitude"; "longitude";
    "found" ].

(** Reading an identifier: one that is bound nowhere throws. *)
Definition identifier (scope : list string) (x : string) (v : JsVal) : Promise JsVal :=
  if existsb (String.eqb x) scope then resolve v
  else throw (ReferenceError (x ++ " is not defined")).

Definition dquote : string := String (ascii_of_nat 34) EmptyString.

Section Handlers.

(** [utils/consts/berlin-boroughs.js] and [utils/mail.js] are not part of
    the sources at hand: the constants they export are parameters. *)
Variable BERLIN_BOROUGHS : list string.
Variable welcomeMessage : string.

(** bcryptjs: the hash of a password under a salt, and the comparison of a
    password with a hash. *)
Variable hash : string -> string -> string.
Variable compare : string -> string -> bool.

Variable o : Oracle.

(** [User.findOne(q)]: the first matching document, or [null]. *)
Definition User_findOne (q : Filter) : Promise (option User.t) :=
  fun w =>
    let w := log (FindOne q) w in
    match o.(findOne_error) with
    | Some e => (Rejected e, w)
    | None => (Resolved (List.find (matches q) w.(users)), w)
    end.

(** [User.create(doc)]: stores the document and resolves to it. *)
Definition User_create (doc : User.t) : Promise User.t :=
  fun w =>
    let w := log (Create doc) w in
    match o.(create_error) with
    | Some e => (Rejected e, w)
    | None => (Resolved doc, set_users (fun us => (us ++ [doc])%list) w)
    end.

(** [bcrypt.genSalt(rounds)] *)
Definition bcrypt_genSalt (rounds : Z) : Promise string :=
  fun w =>
    let w := log (GenSalt rounds) w in
    match o.(genSalt_error) with
    | Some e => (Rejected e, w)
    | None => (Resolved o.(salt), w)
    end.

(** [bcrypt.hash(s, salt)]: rejects an argument that is not a string. *)
Definition bcrypt_hash (s : Field) (salt : string) : Promise string :=
  match s with
  | None => throw (Error "Illegal arguments: undefined, string")
  | Some s =>
      fun w =>
        let w := log (Hash s salt) w in
        match o.(hash_error) with
        | Some e => (Rejected e, w)
        | None => (Resolved (hash s salt), w)
        end
  end.

(** [bcrypt.compare(s, hash)] *)
Definition bcrypt_compare (s : Field) (hashed : string) : Promise bool :=
  match s with
  | None => throw (Error "Illegal arguments: undefined, string")
  | Some s =>
      fun w =>
        let w := log (Compare s hashed) w in
        match o.(compare_error) with
        | Some e => (Rejected e, w)
        | None => (Resolved (compare s hashed), w)
        end
  end.

(** [transporter.sendMail(m)] *)
Definition transporter_sendMail (m : Mail) : Promise unit :=
  fun w =>
    let w := log (SendMail m) w in
    match o.(sendMail_error) with
    | Some e => (Rejected e, w)
    | None => (Resolved tt, w)
    end.

(** [req.session.user = user] *)
Definition session_set_user (req : Request) (user : User.t) : Promise unit :=
  effect (set_sessions (fun ss => <[req.(sessionID) := Session.mk (Some user)]> ss)).

(** [req.session.destroy(callback)]: the store drops the record of this
    session id, or fails; the callback gets the failure, if any. *)
Definition session_destroy (req : Request) : Promise (option JsError) :=
  fun w =>
    let w := log (Destroy req.(sessionID)) w in
    match o.(destroy_error) with
    | Some e => (Resolved (Some e), w)
    | None => (Resolved None, set_sessions (fun ss => delete req.(sessionID) ss) w)
    end.

(** ** [src/routes/auth.js] *)

(** [router.get("/signup", ...)] *)
Definition get_signup (req : Request) : Promise unit :=
  res_render "auth/signup"
    [ ("berlinBoroughs", JStrings BERLIN_BOROUGHS); ("containsMap", JBool true) ].

(** [router.post("/signup", ...)] *)
Definition post_signup (req : Request) : Promise unit :=
  let username := Body.username req.(body) in
  let password := Body.password req.(body) in
  let email := Body.email req.(body) in
  let name := Body.name req.(body) in
  let berlinBorough := Body.berlinBorough req.(body) in
  let location := Body.location req.(body) in
  let latitude := Body.latitude req.(body) in
  let longitude := Body.longitude req.(body) in
  if negb (truthy username) || negb (truthy name) || negb (truthy email) then
    res_status 400 ;;
    res_render "auth/signup"
      [ ("errorMessage", JString "Please fill in all required fields.");
        ("berlinBoroughs", JStrings BERLIN_BOROUGHS);
        ("containsMap", JBool true);
        ("username", js username);
        ("password", js password);
        ("email", js email);
        ("name", js name);
        ("berlinBorough", js berlinBorough);
        ("latitude", js latitude);
        ("longitude", js longitude) ]
  else
  match js_length password with
  | inl e => throw e
  | inr len =>
  if len <? 8 then
    res_status 400 ;;
    res_render "auth/signup"
      [ ("errorMessage", JString "Your password needs to be at least 8 characters long.");
        ("berlinBoroughs", JStrings BERLIN_BOROUGHS);
        ("containsMap", JBool true);
        ("username", js username);
        ("password", js password);
        ("email", js email);
        ("name", js name);
        ("berlinBorough", js berlinBorough);
        ("latitude", js latitude);
        ("longitude", js longitude) ]
  else
  floating (
    found <- User_findOne (ByUsernameOrEmail username email) ;;
    match found with
    | Some _ =>
        res_status 400 ;;
        newsletter <- identifier signup_scope "newsletter" JUndefined ;;
        res_render "auth/signup"
          [ ("errorMessage", JString "Username or email already taken");
            ("berlinBoroughs", JStrings BERLIN_BOROUGHS);
            ("containsMap", JBool true);
            ("username", js username);
            ("password", js password);
            ("email", js email);
            ("name", js name);
            ("berlinBorough", js berlinBorough);
            ("latitude", js latitude);
            ("longitude", js longitude);
            ("newsletter", newsletter) ]
    | None =>
        catch (
          salt <- bcrypt_genSalt saltRounds ;;
          hashedPassword <- bcrypt_hash password salt ;;
          user <- User_create
            {| User.username := username;
               User.password := hashedPassword;
               User.email := email;
               User.name := name;
               User.berlinBorough := berlinBorough;
               User.location :=
                 {| Location.type := "Point";
                    Location.coordinates := [longitude; latitude] |};
               User.profilePicture := "/images/default-profile-picture.png" |} ;;
          session_set_user req user ;;
          floating (transporter_sendMail
            {| from := dquote ++ "House of Plants 🌱" ++ dquote
                         ++ " <houseofplants.ih@gmail.com>";
               to := User.email user;
               subject := "🪴 Welcome to House of Plants 🪴";
               text := "Hello world?";
               html := welcomeMessage |}) ;;
          res_redirect "/")
        (fun error =>
          if isValidationError error then
            res_status 400 ;;
            res_render "auth/signup" [ ("errorMessage", JString (message error)) ]
          else if bool_decide (code error = Some 11000) then
            res_status 400 ;;
            res_render "signup"
              [ ("errorMessage", JString "Username and email need to be unique. The username/email you entered is already in use.") ]
          else
            res_status 500 ;;
            res_render "auth/signup" [ ("errorMessage", JString (message error)) ])
    end)
  end.

(** [router.get("/login", ...)] *)
Definition get_login (req : Request) : Promise unit :=
  res_render "auth/login" [].

(** [router.post("/login", ...)] *)
Definition post_login (req : Request) : Promise unit :=
  let username := Body.username req.(body) in
  let password := Body.password req.(body) in
  if negb (truthy password) && negb (truthy password) then
    res_status 400 ;;
    res_render "auth/login"
      [ ("errorMessage", JString "Please provide your username and password.") ]
  else
  if negb (truthy username) then
    res_status 400 ;;
    res_render "auth/login" [ ("errorMessage", JString "Please provide your username.") ]
  else
  if negb (truthy password) then
    res_status 400 ;;
    res_render "auth/login" [ ("errorMessage", JString "Please provide your password.") ]
  else
  match js_length password with
  | inl e => throw e
  | inr len =>
  if len <? 8 then
    res_status 400 ;;
    res_render "auth/login"
      [ ("errorMessage", JString "Your password needs to be at least 8 characters long.") ]
  else
  floating (
    catch (
      user <- User_findOne (ByUsername username) ;;
      match user with
      | None =>
          res_status 400 ;;
          res_render "auth/login" [ ("errorMessage", JString "Wrong credentials.") ]
      | Some user =>
          floating (
            isSamePassword <- bcrypt_compare password (User.password user) ;;
            if negb isSamePassword then
              res_status 400 ;;
              res_render "auth/login" [ ("errorMessage", JString "Wrong credentials.") ]
            else
              session_set_user req user ;;
              res_redirect "/")
      end)
    (fun err => next err))
  end.

(** [router.get("/logout", ...)] *)
Definition get_logout (req : Request) : Promise unit :=
  err <- session_destroy req ;;
  match err with
  | Some err =>
      res_status 500 ;;
      res_render "auth/logout" [ ("errorMessage", JString (message err)) ]
  | None => res_redirect "/"
  end.

End Handlers.

(** ** [src/app.js] *)

(** The middleware that makes the user visible to every view:
    [if (req.session.user) res.locals.user = req.session.user]. A session id
    the store does not know gives a fresh session, without a user. *)
Definition res_locals_user (req : Request) (w : World) : option User.t :=
  match w.(sessions) !! req.(sessionID) with
  | Some s => Session.user s
  | None => None
  end.

(** ** Sample inputs *)

(** An oracle under which every collaborator succeeds. *)
Definition no_faults : Oracle :=
  {| findOne_error := None;
     genSalt_error := None;
     salt := "$2a$10$N9qo8uLOickgx2ZMRZoMye";
     hash_error := None;
     compare_error := None;
     create_error := None;
     sendMail_error := None;
     destroy_error := None |}.

(** The persistence layer rejects the create with a duplicate-key error. *)
Definition duplicate_key : Oracle :=
  {| findOne_error := None;
     genSalt_error := None;
     salt := "$2a$10$N9qo8uLOickgx2ZMRZoMye";
     hash_error := None;
     compare_error := None;
     create_error := Some (MongoServerError 11000 "E11000 duplicate key error");
     sendMail_error := None;
     destroy_error := None |}.

(** The session store fails to destroy. *)
Definition store_down : Oracle :=
  {| findOne_error := None;
     genSalt_error := None;
     salt := "$2a$10$N9qo8uLOickgx2ZMRZoMye";
     hash_error := None;
     compare_error := None;
     create_error := None;
     sendMail_error := None;
     destroy_error := Some (Error "store unreachable") |}.

(** A stand-in for bcryptjs on sample inputs: the salt followed by the
    password, compared by looking for the password at the end. *)
Definition sample_hash (plain salt : string) : string := salt ++ plain.

Definition sample_compare (plain hashed : string) : bool :=
  String.eqb
    (substring (String.length hashed - String.length plain)%nat
               (String.length plain) hashed)
    plain.

Definition sample_boroughs : list string := [ "Mitte"; "Pankow"; "Spandau" ].
Definition sample_welcome : string := "<h1>Welcome</h1>".

(** A form with the four text fields, and nothing chosen on the map. *)
Definition form (username password email name : Field) : Body.t :=
  {| Body.username := username; Body.password := password; Body.email := email;
     Body.name := name; Body.berlinBorough := None; Body.location := None;
     Body.latitude := None; Body.longitude := None |}.

Definition alice_form : Body.t :=
  form (Some "alice") (Some "correct horse") (Some "alice@example.org") (Some "Alice").

(** Alice as the signup handler stores her under [no_faults]. *)
Definition alice : User.t :=
  {| User.username := Some "alice";
     User.password := sample_hash "correct horse" no_faults.(salt);
     User.email := Some "alice@example.org";
     User.name := Some "Alice";
     User.berlinBorough := None;
     User.location :=
       {| Location.type := "Point"; Location.coordinates := [None; None] |};
     User.profilePicture := "/images/default-profile-picture.png" |}.

(** ** What a handler left behind *)

(** The handler answered: a view was rendered or a redirect sent, nothing
    was thrown and no rejection was left unhandled. *)
Definition answered (r : Settled unit * World) : Prop :=
  fst r = Resolved tt /\ is_Some (snd r).(sent) /\ (snd r).(unhandled) = [].

Definition wrong_credentials : Response :=
  Render 400 "auth/login" [ ("errorMessage", JString "Wrong credentials.") ].

(** The two ways a well-formed login is turned down. *)
Definition unknown_username (req : Request) (w : World) : Prop :=
  List.find (matches (ByUsername (Body.username req.(body)))) w.(users) = None.

Definition wrong_password (compare : string -> string -> bool) (req : Request)
    (w : World) : Prop :=
  exists user p,
    List.find (matches (ByUsername (Body.username req.(body)))) w.(users) = Some user
    /\ Body.password req.(body) = Some p
    /\ compare p (User.password user) = false.

(** Username and password present, the password of at least 8 code units. *)
Definition well_formed_login (req : Request) : Prop :=
  truthy (Body.username req.(body)) = true
  /\ exists p, Body.password req.(body) = Some p
               /\ 8 <= Z.of_nat (utf16_length p).

(** The view context of a later request shows the hash [hashed]. *)
Definition exposes_hash (view_user : option User.t) (hashed : string) : Prop :=
  exists u, view_user = Some u /\ User.password u = hashed.

(** A signup submission that gets past both validation steps: username,
    name and email present, the password [p] of at least 8 code units. *)
Definition passes_validation (req : Request) (p : string) : Prop :=
  truthy (Body.username req.(body)) = true
  /\ truthy (Body.name req.(body)) = true
  /\ truthy (Body.email req.(body)) = true
  /\ Body.password req.(body) = Some p
  /\ 8 <= Z.of_nat (utf16_length p).

(** The uniqueness lookup of the signup handler finds nobody. *)
Definition nobody_matches (req : Request) (w : World) : Prop :=
  List.find
    (matches (ByUsernameOrEmail (Body.username req.(body)) (Body.email req.(body))))
    w.(users) = None.

(** The document the signup handler hands to [User.create], for the
    password hash [hashed]. *)
Definition signup_document (req : Request) (hashed : string) : User.t :=
  {| User.username := Body.username req.(body);
     User.password := hashed;
     User.email := Body.email req.(body);
     User.name := Body.name req.(body);
     User.berlinBorough := Body.berlinBorough req.(body);
     User.location :=
       {| Location.type := "Point";
          Location.coordinates :=
            [Body.longitude req.(body); Body.latitude req.(body)] |};
     User.profilePicture := "/images/default-profile-picture.png" |}.

(** The welcome mail to an address. *)
Definition welcome_mail (welcomeMessage : string) (address : Field) : Mail :=
  {| from := dquote ++ "House of Plants 🌱" ++ dquote
               ++ " <houseofplants.ih@gmail.com>";
     to := address;
     subject := "🪴 Welcome to House of Plants 🪴";
     text := "Hello world?";
     html := welcomeMessage |}.

(** The context every validation failure of the signup handler echoes back:
    the message, the boroughs, the map flag and the entered values. *)
Definition signup_echo (BERLIN_BOROUGHS : list string) (errorMessage : string)
    (req : Request) : list (string * JsVal) :=
  [ ("errorMessage", JString errorMessage);
    ("berlinBoroughs", JStrings BERLIN_BOROUGHS);
    ("containsMap", JBool true);
    ("username", js (Body.username req.(body)));
    ("password", js (Body.password req.(body)));
    ("email", js (Body.email req.(body)));
    ("name", js (Body.name req.(body)));
    ("berlinBorough", js (Body.berlinBorough req.(body)));
    ("latitude", js (Body.latitude req.(body)));
    ("longitude", js (Body.longitude req.(body))) ].

(** The rejection the [catch] of the signup handler receives, if any: of
    the salt, else of the hash, else of the create. *)
Definition signup_chain_error (o : Oracle) : option JsError :=
  match o.(genSalt_error) with
  | Some e => Some e
  | None =>
      match o.(hash_error) with
      | Some e => Some e
      | None => o.(create_error)
      end
  end.

(** What the [catch] of the signup handler renders for an error. *)
Definition signup_failure (error : JsError) : Response :=
  if isValidationError error then
    Render 400 "auth/signup" [ ("errorMessage", JString (message error)) ]
  else if bool_decide (code error = Some 11000) then
    Render 400 "signup"
      [ ("errorMessage", JString "Username and email need to be unique. The username/email you entered is already in use.") ]
  else
    Render 500 "auth/signup" [ ("errorMessage", JString (message error)) ].

(** Either cause of a turned-down login. *)
Definition turned_down (compare : string -> string -> bool) (req : Request)
    (w : World) : Prop :=
  unknown_username req w \/ wrong_password compare req w.

(** No two stored users share a username, and no two share an email. *)
Definition unique_users (us : list User.t) : Prop :=
  NoDup (map User.username us) /\ NoDup (map User.email us).

(** The round trip as the specification words it: after a signup with
    password [p], a login with the same username and [p] redirects home, and
    the view context of the session does not show the stored hash. *)
Definition round_trip_hides_hash (BERLIN_BOROUGHS : list string)
    (welcomeMessage : string) (hash : string -> string -> string)
    (compare : string -> string -> bool) (o1 o2 : Oracle)
    (signup login : Request) (w : World) (p : string) : Prop :=
  let w1 := snd (post_signup BERLIN_BOROUGHS welcomeMessage hash o1 signup w) in
  let w2 := snd (post_login compare o2 login (incoming w1.(users) w1.(sessions))) in
  w2.(sent) = Some (Redirect "/")
  /\ ~ exposes_hash (res_locals_user login w2) (hash p o1.(salt)).

(** ** [src/app.js]: the title *)

(** One code unit of an ASCII string, upper- and lower-cased. *)
Definition is_lower (c : ascii) : bool :=
  (97 <=? nat_of_ascii c)%nat && (nat_of_ascii c <=? 122)%nat.

Definition is_upper (c : ascii) : bool :=
  (65 <=? nat_of_ascii c)%nat && (nat_of_ascii c <=? 90)%nat.

Definition upper (c : ascii) : ascii :=
  if is_lower c then ascii_of_nat (nat_of_ascii c - 32) else c.

Definition lower (c : ascii) : ascii :=
  if is_upper c then ascii_of_nat (nat_of_ascii c + 32) else c.

(** [s.toUpperCase()] and [s.toLowerCase()], on ASCII strings. *)
Fixpoint toUpperCase (s : string) : string :=
  match s with
  | EmptyString => EmptyString
  | String c rest => String (upper c) (toUpperCase rest)
  end.

Fixpoint toLowerCase (s : string) : string :=
  match s with
  | EmptyString => EmptyString
  | String c rest => String (lower c) (toLowerCase rest)
  end.

(** Every code unit is below 128. *)
Fixpoint is_ascii (s : string) : bool :=
  match s with
  | EmptyString => true
  | String c rest => (nat_of_ascii c <? 128)%nat && is_ascii rest
  end.

(** No code unit of the string is an upper-case letter. *)
Fixpoint no_upper (s : string) : bool :=
  match s with
  | EmptyString => true
  | String c rest => negb (is_upper c) && no_upper rest
  end.

(** [capitalized]: [string[0].toUpperCase() + string.slice(1).toLowerCase()].
    On the empty string [string[0]] is [undefined], and the call on it
    throws. *)
Definition capitalized (s : string) : JsError + string :=
  match s with
  | EmptyString =>
      inl (TypeError "Cannot read properties of undefined (reading 'toUpperCase')")
  | String c rest => inr (toUpperCase (String c EmptyString) ++ toLowerCase rest)
  end.

(** [projectName] *)
Definition projectName : string := "house-of-plants".

(** [app.locals.title] *)
Definition title : JsError + string :=
  match capitalized projectName with
  | inl e => inl e
  | inr name => inr (name ++ " created with Ironlauncher")
  end.

(** ** The map script ([src/unnamed/part_000]) *)

Module Page.
(** The page the script runs on: the values of its input elements by id,
    the global variables the script creates, and the console. *)
Record t := mk {
  inputs : gmap string string;
  globals : gmap string string;
  console : list (list string) }.
End Page.

Definition set_input (id value : string) (pg : Page.t) : Page.t :=
  {| Page.inputs := <[id := value]> pg.(Page.inputs);
     Page.globals := pg.(Page.globals);
     Page.console := pg.(Page.console) |}.

Definition set_global (x value : string) (pg : Page.t) : Page.t :=
  {| Page.inputs := pg.(Page.inputs);
     Page.globals := <[x := value]> pg.(Page.globals);
     Page.console := pg.(Page.console) |}.

Definition console_log (line : list string) (pg : Page.t) : Page.t :=
  {| Page.inputs := pg.(Page.inputs);
     Page.globals := pg.(Page.globals);
     Page.console := (pg.(Page.console) ++ [line])%list |}.

(** [getUserLatLng]: [document.getElementById(id)] is [null] for an id the
    page does not have, and reading [.value] of it throws. [userLat] and
    [userLng] are assigned without a declaration, so they become globals. *)
Definition getUserLatLng (pg : Page.t) : Settled (list string) * Page.t :=
  match pg.(Page.inputs) !! "latitude" with
  | None => (Rejected (TypeError "Cannot read properties of null (reading 'value')"), pg)
  | Some userLat =>
      let pg := set_global "userLat" userLat pg in
      match pg.(Page.inputs) !! "longitude" with
      | None =>
          (Rejected (TypeError "Cannot read properties of null (reading 'value')"), pg)
      | Some userLng =>
          let pg := set_global "userLng" userLng pg in
          let userLocation := [userLng; userLat] in
          (Resolved userLocation, console_log userLocation pg)
      end
  end.

Section MapScript.

(** The numbers of a marker position, and how an input shows one when it is
    assigned to its [value]. *)
Variable Num : Type.
Variable toString : Num -> string.

(** What [marker.getLngLat()] returns. *)
Record LngLat := { lng : Num; lat : Num }.

(** [onDragEnd], for the position [marker.getLngLat()] returns. *)
Definition onDragEnd (lngLat : LngLat) (pg : Page.t) : Settled unit * Page.t :=
  match pg.(Page.inputs) !! "latitude" with
  | None => (Rejected (TypeError "Cannot set properties of null (setting 'value')"), pg)
  | Some _ =>
      let pg := set_input "latitude" (toString lngLat.(lat)) pg in
      match pg.(Page.inputs) !! "longitude" with
      | None =>
          (Rejected (TypeError "Cannot set properties of null (setting 'value')"), pg)
      | Some _ =>
          (Resolved tt, set_input "longitude" (toString lngLat.(lng)) pg)
      end
  end.

End MapScript.

Arguments lng {Num} _.
Arguments lat {Num} _.

(** ** More sample inputs *)

(** The lookup fails. *)
Definition lookup_down : Oracle :=
  {| findOne_error := Some (Error "connection lost");
     genSalt_error := None;
     salt := "$2a$10$N9qo8uLOickgx2ZMRZoMye";
     hash_error := None;
     compare_error := None;
     create_error := None;
     sendMail_error := None;
     destroy_error := None |}.

(** The create fails for a reason of its own. *)
Definition create_down : Oracle :=
  {| findOne_error := None;
     genSalt_error := None;
     salt := "$2a$10$N9qo8uLOickgx2ZMRZoMye";
     hash_error := None;
     compare_error := None;
     create_error := Some (Error "connection lost");
     sendMail_error := None;
     destroy_error := None |}.

(** bcryptjs turns the password down, as it does one that is no string. *)
Definition hash_down : Oracle :=
  {| findOne_error := None;
     genSalt_error := None;
     salt := "$2a$10$N9qo8uLOickgx2ZMRZoMye";
     hash_error := Some (Error "Illegal arguments: object, string");
     compare_error := None;
     create_error := None;
     sendMail_error := None;
     destroy_error := None |}.

Definition compare_down : Oracle :=
  {| findOne_error := None;
     genSalt_error := None;
     salt := "$2a$10$N9qo8uLOickgx2ZMRZoMye";
     hash_error := None;
     compare_error := Some (Error "Illegal arguments: object, string");
     create_error := None;
     sendMail_error := None;
     destroy_error := None |}.

(** The schema rejects the document. *)
Definition invalid_document : Oracle :=
  {| findOne_error := None;
     genSalt_error := None;
     salt := "$2a$10$N9qo8uLOickgx2ZMRZoMye";
     hash_error := None;
     compare_error := None;
     create_error := Some (ValidationError "User validation failed");
     sendMail_error := None;
     destroy_error := None |}.

(** A page with the two coordinate inputs and one more. *)
Definition sample_page : Page.t :=
  {| Page.inputs :=
       {[ "latitude" := "52.52"; "longitude" := "13.405"; "name" := "Alice" ]};
     Page.globals := ∅;
     Page.console := [] |}.

(** ** Reading a world *)

(** The mails sent so far, in order. *)
Definition mails (w : World) : list Mail :=
  omap (fun c => match c with SendMail m => Some m | _ => None end) w.(calls).

(** A call that only reads: a lookup or a comparison. *)
Definition reads_only (c : Call) : bool :=
  match c with
  | FindOne _ | Compare _ _ => true
  | _ => false
  end.

(** Every user a session holds is a record of the User collection. *)
Definition sessions_backed (w : World) : Prop :=
  forall sid s u,
    w.(sessions) !! sid = Some s -> Session.user s = Some u -> u ∈ w.(users).

(** ** Tactics: running a handler *)

Ltac run_login :=
  unfold post_login, floating, catch, then_, User_findOne, bcrypt_compare,
    res_status, res_render, res_redirect, session_set_user, next, effect,
    throw, resolve; simpl.

Ltac run_signup :=
  unfold post_signup, floating, catch, then_, User_findOne, User_create,
    bcrypt_genSalt, bcrypt_hash, transporter_sendMail, identifier,
    res_status, res_render, res_redirect, session_set_user, effect,
    throw, resolve; simpl.

Ltac run_logout :=
  unfold get_logout, then_, session_destroy, res_status, res_render,
    res_redirect, effect; simpl.

(** The three ways the [catch] of the signup handler renders an error. *)
Ltac catch_branches error :=
  destruct (isValidationError error) eqn:Hvalidation; simpl;
  [ | destruct (bool_decide (code error = Some 11000)) eqn:Hcode; simpl ].

(** Every branch of the signup handler, one goal each. *)
Ltac signup_branches req o :=
  run_signup;
  destruct (truthy (Body.username (body req))) eqn:Husername; simpl;
  [ destruct (truthy (Body.name (body req))) eqn:Hname; simpl;
    [ destruct (truthy (Body.email (body req))) eqn:Hemail; simpl;
      [ destruct (Body.password (body req)) as [p|] eqn:Hpassword; simpl;
        [ destruct (Z.ltb_spec (Z.of_nat (utf16_length p)) 8); simpl;
          [ | destruct (findOne_error o) as [lookup_error|] eqn:Hlookup; simpl;
              [ | destruct (List.find _ _) as [found|] eqn:Hfound; simpl;
                  [ | destruct (genSalt_error o) as [error|] eqn:Hsalt; simpl;
                      [ catch_branches error
                      | destruct (hash_error o) as [error|] eqn:Hhash; simpl;
                        [ catch_branches error
                        | destruct (create_error o) as [error|] eqn:Hcreate;
                          simpl;
                          [ catch_branches error
                          | destruct (sendMail_error o) as [mail_error|]
                              eqn:Hmail; simpl ] ] ] ] ] ]
        | ]
      | ]
    | ]
  | ].

(** Every branch of the login handler, one goal each. *)
Ltac login_branches compare req o :=
  run_login;
  destruct (Body.password (body req)) as [p|] eqn:Hpassword; simpl;
  [ destruct (String.eqb p "") eqn:Hempty; simpl;
    [ | destruct (truthy (Body.username (body req))) eqn:Husername; simpl;
        [ destruct (Z.ltb_spec (Z.of_nat (utf16_length p)) 8); simpl;
          [ | destruct (findOne_error o) as [lookup_error|] eqn:Hlookup; simpl;
              [ | destruct (List.find _ _) as [user|] eqn:Hfound; simpl;
                  [ destruct (compare_error o) as [error|] eqn:Hcomparison;
                    simpl;
                    [ | destruct (compare p (User.password user)) eqn:Hcompare;
                        simpl ]
                  | ] ] ]
        | ] ]
  | ].

(** * Properties *)

(** ** Fields *)

Lemma truthy_Some (v : Field) :
  truthy v = true -> exists s, v = Some s /\ s <> "".
Proof.
  destruct v as [s|]; simpl; [|discriminate].
  intros H. exists s. split; [reflexivity|].
  intros ->. discriminate.
Qed.

Lemma falsy_cases (v : Field) :
  truthy v = false <-> v = None \/ v = Some "".
Proof.
  split.
  - destruct v as [s|]; simpl; [|auto].
    destruct (String.eqb_spec s "") as [->|]; [auto|discriminate].
  - intros [->| ->]; reflexivity.
Qed.

(** No string has more code units than bytes. *)
Lemma code_units_le (after_lead4 : bool) (s : string) :
  (code_units after_lead4 s <= String.length s)%nat.
Proof.
  revert after_lead4. induction s as [|c s IH]; intros after_lead4; simpl.
  - apply le_n.
  - destruct (is_continuation c).
    + specialize (IH false). destruct after_lead4; simpl; lia.
    + specialize (IH (is_lead4 c)). lia.
Qed.

Lemma utf16_length_le (s : string) : (utf16_length s <= String.length s)%nat.
Proof. apply code_units_le. Qed.

(** On an ASCII string the code units are the bytes. *)
Lemma code_units_ascii (s : string) :
  is_ascii s = true -> utf16_length s = String.length s.
Proof.
  unfold utf16_length. induction s as [|c s IH]; simpl; [reflexivity|].
  intros H. apply andb_true_iff in H as [Hc Hs].
  assert (is_continuation c = false) as ->.
  { unfold is_continuation. apply Nat.ltb_lt in Hc.
    destruct (Nat.leb_spec 128 (nat_of_ascii c)); [lia|reflexivity]. }
  assert (is_lead4 c = false) as ->.
  { unfold is_lead4. apply Nat.ltb_lt in Hc.
    destruct (Nat.leb_spec 240 (nat_of_ascii c)); [lia|reflexivity]. }
  rewrite (IH Hs). reflexivity.
Qed.

(** Two passwords of fewer than 8 code units and of 8 bytes or more. *)
Example code_units_of_accents : utf16_length "pässwör" = 7%nat.
Proof. reflexivity. Qed.

Example code_units_of_pairs : utf16_length "🌱🌱🌱" = 6%nat.
Proof. reflexivity. Qed.

(** Both are turned down by the length test, before any lookup. *)
Example login_accented_password :
  let req := {| sessionID := "s1";
                body := form (Some "alice") (Some "pässwör") None None |} in
  let r := post_login sample_compare no_faults req (incoming [alice] ∅) in
  (snd r).(sent)
  = Some (Render 400 "auth/login"
      [ ("errorMessage",
         JString "Your password needs to be at least 8 characters long.") ])
  /\ (snd r).(calls) = [].
Proof. split; reflexivity. Qed.

Example signup_paired_password :
  let req := {| sessionID := "s1";
                body := form (Some "alice") (Some "🌱🌱🌱") (Some "alice@example.org")
                             (Some "Alice") |} in
  let r := post_signup sample_boroughs sample_welcome sample_hash no_faults req
             (incoming [] ∅) in
  (snd r).(sent)
  = Some (Render 400 "auth/signup"
      (signup_echo sample_boroughs
         "Your password needs to be at least 8 characters long." req))
  /\ (snd r).(calls) = []
  /\ (snd r).(users) = [].
Proof. repeat split; reflexivity. Qed.

Lemma long_is_truthy (p : string) :
  8 <= Z.of_nat (utf16_length p) -> truthy (Some p) = true.
Proof. destruct p; [unfold utf16_length; simpl; lia|reflexivity]. Qed.

Lemma Field_eqb_refl (v : Field) : Field_eqb v v = true.
Proof. destruct v; simpl; [apply String.eqb_refl|reflexivity]. Qed.

Lemma Field_eqb_eq (a b : Field) : Field_eqb a b = true <-> a = b.
Proof.
  destruct a, b; simpl; try (split; [discriminate|congruence]); [|tauto].
  rewrite String.eqb_eq. split; congruence.
Qed.

(** A lookup by username or email that finds nobody: a lookup by that
    username alone finds nobody either. *)
Lemma find_or_None (username email : Field) (us : list User.t) :
  List.find (matches (ByUsernameOrEmail username email)) us = None ->
  List.find (matches (ByUsername username)) us = None.
Proof.
  induction us as [|u us IH]; simpl; [reflexivity|].
  destruct (Field_eqb (User.username u) username); simpl; [discriminate|].
  destruct (Field_eqb (User.email u) email); [discriminate|exact IH].
Qed.

Lemma find_app_None {A} (f : A -> bool) (l1 l2 : list A) :
  List.find f l1 = None -> List.find f (l1 ++ l2)%list = List.find f l2.
Proof.
  induction l1 as [|a l1 IH]; simpl; [reflexivity|].
  destruct (f a); [discriminate|exact IH].
Qed.

(** ** Login *)

(** A missing password gives the both-fields prompt, whatever the username:
    the first test of the handler reads the password twice. *)
Lemma login_password_missing compare o req w :
  truthy (Body.password req.(body)) = false ->
  (snd (post_login compare o req w)).(sent)
  = Some (Render 400 "auth/login"
      [ ("errorMessage", JString "Please provide your username and password.") ]).
Proof. intros H. run_login. rewrite H. reflexivity. Qed.

(** A missing username, the password present, gives the username prompt. *)
Lemma login_username_missing compare o req w :
  truthy (Body.password req.(body)) = true ->
  truthy (Body.username req.(body)) = false ->
  (snd (post_login compare o req w)).(sent)
  = Some (Render 400 "auth/login"
      [ ("errorMessage", JString "Please provide your username.") ]).
Proof. intros Hp Hu. run_login. rewrite Hp, Hu. reflexivity. Qed.

(** Both present and the password of fewer than 8 code units: the length
    prompt. *)
Lemma login_password_short compare o req w p :
  truthy (Body.username req.(body)) = true ->
  Body.password req.(body) = Some p ->
  p <> "" ->
  Z.of_nat (utf16_length p) < 8 ->
  (snd (post_login compare o req w)).(sent)
  = Some (Render 400 "auth/login"
      [ ("errorMessage",
         JString "Your password needs to be at least 8 characters long.") ]).
Proof.
  intros Hu Hp Hne Hlen. run_login. rewrite Hp, Hu. simpl.
  destruct (String.eqb_spec p "") as [->|_]; [congruence|]. simpl.
  destruct (Z.ltb_spec (Z.of_nat (utf16_length p)) 8); [reflexivity|lia].
Qed.

(** The password-specific prompt is never rendered. *)
Lemma login_password_prompt_dead compare o req w :
  w.(sent) = None ->
  (snd (post_login compare o req w)).(sent)
  <> Some (Render 400 "auth/login"
       [ ("errorMessage", JString "Please provide your password.") ]).
Proof.
  intros Hfresh. run_login.
  destruct (truthy (Body.password (body req))) eqn:Hp; simpl; [|discriminate].
  destruct (truthy (Body.username (body req))); simpl; [|discriminate].
  destruct (truthy_Some _ Hp) as (p & -> & _). simpl.
  destruct (Z.of_nat (utf16_length p) <? 8); simpl; [discriminate|].
  destruct (findOne_error o); simpl; [rewrite Hfresh; discriminate|].
  destruct (List.find _ _) as [user|]; simpl; [|discriminate].
  destruct (compare_error o); simpl; [rewrite Hfresh; discriminate|].
  destruct (compare p (User.password user)); simpl; discriminate.
Qed.

(** A well-formed login that is turned down: the generic message, with
    status 400, and the store and the sessions as they were. *)
Lemma login_turned_down compare o req w :
  well_formed_login req ->
  o.(findOne_error) = None ->
  o.(compare_error) = None ->
  turned_down compare req w ->
  let r := post_login compare o req w in
  fst r = Resolved tt
  /\ (snd r).(sent) = Some wrong_credentials
  /\ (snd r).(statusCode) = 400
  /\ (snd r).(sessions) = w.(sessions)
  /\ (snd r).(users) = w.(users)
  /\ (snd r).(forwarded) = w.(forwarded)
  /\ (snd r).(unhandled) = w.(unhandled).
Proof.
  intros (Hu & p & Hp & Hlen) Ho Hoc Hcause. run_login.
  rewrite Hp, Hu. rewrite (long_is_truthy p Hlen). simpl.
  destruct (Z.ltb_spec (Z.of_nat (utf16_length p)) 8); [lia|].
  rewrite Ho. simpl.
  destruct Hcause as [Hnone|(user & p' & Hfind & Hp' & Hcmp)].
  - unfold unknown_username in Hnone. rewrite Hnone. simpl. tauto.
  - rewrite Hfind. simpl. rewrite Hoc. simpl. rewrite Hp in Hp'.
    injection Hp' as <-. rewrite Hcmp. simpl. tauto.
Qed.

(** Whatever the form holds, the login handler throws nothing and, the
    comparison resolving, leaves no rejection unhandled: it renders,
    redirects, or hands the failed lookup to [next]. *)
Lemma login_always_ends compare o req w :
  o.(compare_error) = None ->
  let r := post_login compare o req w in
  fst r = Resolved tt
  /\ (snd r).(unhandled) = w.(unhandled)
  /\ (is_Some (snd r).(sent) \/
      exists e, o.(findOne_error) = Some e /\ (snd r).(forwarded) = Some e).
Proof.
  intros Hoc. run_login.
  destruct (truthy (Body.password (body req))) eqn:Hp; simpl; [|eauto 6].
  destruct (truthy (Body.username (body req))); simpl; [|eauto 6].
  destruct (truthy_Some _ Hp) as (p & -> & _). simpl.
  destruct (Z.of_nat (utf16_length p) <? 8); simpl; [eauto 6|].
  destruct (findOne_error o); simpl; [eauto 8|].
  destruct (List.find _ _) as [user|]; simpl; [|eauto 6].
  rewrite Hoc. simpl.
  destruct (compare p (User.password user)); simpl; eauto 6.
Qed.

(** C3. The login handler is claimed to answer a missing password, the
    username present, with the password-specific prompt. It does not: for
    the submission [{ username: "alice" }] it renders the both-fields
    prompt, because its first test is [!password && !password]. The test
    that would render "Please provide your password." is never reached
    ([login_password_prompt_dead]); the other three cases of the claimed
    order hold ([login_password_missing] with both fields missing,
    [login_username_missing], [login_password_short]). *)
Theorem login_missing_password_gets_generic_prompt :
  let req := {| sessionID := "s1"; body := form (Some "alice") None None None |} in
  let r := post_login sample_compare no_faults req (incoming [alice] ∅) in
  (snd r).(sent)
  = Some (Render 400 "auth/login"
      [ ("errorMessage", JString "Please provide your username and password.") ])
  /\ (snd r).(sent)
     <> Some (Render 400 "auth/login"
          [ ("errorMessage", JString "Please provide your password.") ]).
Proof. split; [reflexivity|discriminate]. Qed.

(** C5. Two well-formed login submissions (username present, password of
    at least 8 code units, as [password.length] counts them) that are turned
    down, each because the username names no user or because the password
    does not match the stored hash, get the same response whatever the
    cause, a 400 render of the login view with "Wrong credentials.", and
    neither binds a user to a session: the session store is left as it was.
    The lookup and the comparison are taken to resolve. *)
Theorem login_failures_indistinguishable compare o1 o2 req1 req2 w1 w2 :
  well_formed_login req1 ->
  well_formed_login req2 ->
  o1.(findOne_error) = None ->
  o2.(findOne_error) = None ->
  o1.(compare_error) = None ->
  o2.(compare_error) = None ->
  turned_down compare req1 w1 ->
  turned_down compare req2 w2 ->
  let r1 := post_login compare o1 req1 w1 in
  let r2 := post_login compare o2 req2 w2 in
  (snd r1).(sent)
  = Some (Render 400 "auth/login" [ ("errorMessage", JString "Wrong credentials.") ])
  /\ (snd r2).(sent) = (snd r1).(sent)
  /\ (snd r2).(statusCode) = (snd r1).(statusCode)
  /\ (snd r1).(sessions) = w1.(sessions)
  /\ (snd r2).(sessions) = w2.(sessions).
Proof.
  intros Hwf1 Hwf2 Ho1 Ho2 Hoc1 Hoc2 Hdown1 Hdown2 r1 r2.
  destruct (login_turned_down compare o1 req1 w1 Hwf1 Ho1 Hoc1 Hdown1)
    as (_ & Hsent1 & Hst1 & Hss1 & _).
  destruct (login_turned_down compare o2 req2 w2 Hwf2 Ho2 Hoc2 Hdown2)
    as (_ & Hsent2 & Hst2 & Hss2 & _).
  subst r1 r2. rewrite Hsent1, Hsent2, Hst1, Hst2, Hss1, Hss2.
  repeat split; reflexivity.
Qed.

Lemma login_failures_indistinguishable_witness :
  let bob := {| sessionID := "s1";
                body := form (Some "bob") (Some "correct horse") None None |} in
  let mallory := {| sessionID := "s2";
                    body := form (Some "alice") (Some "incorrect horse") None None |} in
  let r1 := post_login sample_compare no_faults bob (incoming [alice] ∅) in
  let r2 := post_login sample_compare no_faults mallory (incoming [alice] ∅) in
  (snd r1).(sent)
  = Some (Render 400 "auth/login" [ ("errorMessage", JString "Wrong credentials.") ])
  /\ (snd r2).(sent) = (snd r1).(sent)
  /\ (snd r2).(statusCode) = (snd r1).(statusCode)
  /\ (snd r1).(sessions) = (incoming [alice] ∅).(sessions)
  /\ (snd r2).(sessions) = (incoming [alice] ∅).(sessions).
Proof.
  intros bob mallory.
  apply (login_failures_indistinguishable sample_compare no_faults no_faults
           bob mallory (incoming [alice] ∅) (incoming [alice] ∅)).
  - split; [reflexivity|]. exists "correct horse". split; [reflexivity|].
    vm_compute. discriminate.
  - split; [reflexivity|]. exists "incorrect horse". split; [reflexivity|].
    vm_compute. discriminate.
  - reflexivity.
  - reflexivity.
  - reflexivity.
  - reflexivity.
  - left. reflexivity.
  - right. exists alice, "incorrect horse". repeat split; reflexivity.
Defined.

(** ** Signup *)

(** A required field is missing: the handler renders at once, and touches
    neither the store, nor the sessions, nor any collaborator. *)
Lemma signup_required_fields BERLIN_BOROUGHS welcomeMessage hash o req w :
  truthy (Body.username req.(body)) = false
  \/ truthy (Body.name req.(body)) = false
  \/ truthy (Body.email req.(body)) = false ->
  post_signup BERLIN_BOROUGHS welcomeMessage hash o req w
  = (Resolved tt,
     set_sent
       (Render 400 "auth/signup"
          (signup_echo BERLIN_BOROUGHS "Please fill in all required fields." req))
       (set_statusCode 400 w)).
Proof.
  intros H. run_signup.
  destruct (truthy (Body.username (body req))), (truthy (Body.name (body req))),
    (truthy (Body.email (body req))); simpl; try reflexivity.
  destruct H as [H|[H|H]]; discriminate.
Qed.

(** The required fields are there and the password has fewer than 8 code
    units, the empty string included. *)
Lemma signup_password_short BERLIN_BOROUGHS welcomeMessage hash o req w p :
  truthy (Body.username req.(body)) = true ->
  truthy (Body.name req.(body)) = true ->
  truthy (Body.email req.(body)) = true ->
  Body.password req.(body) = Some p ->
  Z.of_nat (utf16_length p) < 8 ->
  post_signup BERLIN_BOROUGHS welcomeMessage hash o req w
  = (Resolved tt,
     set_sent
       (Render 400 "auth/signup"
          (signup_echo BERLIN_BOROUGHS
             "Your password needs to be at least 8 characters long." req))
       (set_statusCode 400 w)).
Proof.
  intros Hu Hn He Hp Hlen. run_signup. rewrite Hu, Hn, He, Hp. simpl.
  destruct (Z.ltb_spec (Z.of_nat (utf16_length p)) 8); [|lia].
  unfold signup_echo. rewrite Hp. reflexivity.
Qed.

(** The required fields are there and the password field is absent:
    [password.length] throws out of the handler, before anything is sent. *)
Lemma signup_password_absent BERLIN_BOROUGHS welcomeMessage hash o req w :
  truthy (Body.username req.(body)) = true ->
  truthy (Body.name req.(body)) = true ->
  truthy (Body.email req.(body)) = true ->
  Body.password req.(body) = None ->
  post_signup BERLIN_BOROUGHS welcomeMessage hash o req w
  = (Rejected (TypeError "Cannot read properties of undefined (reading 'length')"), w).
Proof.
  intros Hu Hn He Hp. run_signup. rewrite Hu, Hn, He, Hp. reflexivity.
Qed.

(** The lookup finds a user with the username or the email: the status is
    set to 400, then building the context reads [newsletter], which is
    bound nowhere. Nothing is rendered, the rejection is left unhandled, and
    the store is as it was. *)
Lemma signup_taken BERLIN_BOROUGHS welcomeMessage hash o req w p found :
  passes_validation req p ->
  o.(findOne_error) = None ->
  List.find
    (matches (ByUsernameOrEmail (Body.username req.(body)) (Body.email req.(body))))
    w.(users) = Some found ->
  let r := post_signup BERLIN_BOROUGHS welcomeMessage hash o req w in
  fst r = Resolved tt
  /\ (snd r).(sent) = w.(sent)
  /\ (snd r).(statusCode) = 400
  /\ (snd r).(unhandled)
     = (w.(unhandled) ++ [ReferenceError "newsletter is not defined"])%list
  /\ (snd r).(users) = w.(users)
  /\ (snd r).(sessions) = w.(sessions).
Proof.
  intros (Hu & Hn & He & Hp & Hlen) Ho Hfound. run_signup.
  rewrite Hu, Hn, He, Hp. simpl.
  destruct (Z.ltb_spec (Z.of_nat (utf16_length p)) 8); [lia|].
  rewrite Ho. simpl. rewrite Hfound. simpl. tauto.
Qed.

(** The lookup finds nobody and the create goes through. *)
Lemma signup_created BERLIN_BOROUGHS welcomeMessage hash o req w p :
  passes_validation req p ->
  nobody_matches req w ->
  o.(findOne_error) = None ->
  o.(genSalt_error) = None ->
  o.(hash_error) = None ->
  o.(create_error) = None ->
  let user := signup_document req (hash p o.(salt)) in
  let r := post_signup BERLIN_BOROUGHS welcomeMessage hash o req w in
  fst r = Resolved tt
  /\ (snd r).(sent) = Some (Redirect "/")
  /\ (snd r).(users) = (w.(users) ++ [user])%list
  /\ (snd r).(sessions) = <[req.(sessionID) := Session.mk (Some user)]> w.(sessions)
  /\ (snd r).(calls)
     = (w.(calls) ++
        [ FindOne (ByUsernameOrEmail (Body.username req.(body)) (Body.email req.(body)));
          GenSalt 10;
          Hash p o.(salt);
          Create user;
          SendMail (welcome_mail welcomeMessage (Body.email req.(body))) ])%list
  /\ (snd r).(unhandled)
     = (w.(unhandled) ++
        match o.(sendMail_error) with Some e => [e] | None => [] end)%list
  /\ (snd r).(forwarded) = w.(forwarded).
Proof.
  intros (Hu & Hn & He & Hp & Hlen) Hnobody Ho Hs Hh Hc. run_signup.
  rewrite Hu, Hn, He, Hp. simpl.
  destruct (Z.ltb_spec (Z.of_nat (utf16_length p)) 8); [lia|].
  rewrite Ho. simpl. unfold nobody_matches in Hnobody. rewrite Hnobody. simpl.
  rewrite Hs. simpl. rewrite Hh. simpl. rewrite Hc. simpl.
  destruct (sendMail_error o); simpl;
    rewrite <- ?app_assoc, ?app_nil_r; simpl; repeat split; reflexivity.
Qed.

(** The lookup finds nobody and the create is rejected: the [catch] renders
    by the kind of error. The store is as it was and no user is bound. *)
Lemma signup_create_rejected BERLIN_BOROUGHS welcomeMessage hash o req w p error :
  passes_validation req p ->
  nobody_matches req w ->
  o.(findOne_error) = None ->
  o.(genSalt_error) = None ->
  o.(hash_error) = None ->
  o.(create_error) = Some error ->
  let r := post_signup BERLIN_BOROUGHS welcomeMessage hash o req w in
  fst r = Resolved tt
  /\ (snd r).(sent) = Some (signup_failure error)
  /\ (snd r).(users) = w.(users)
  /\ (snd r).(sessions) = w.(sessions)
  /\ (snd r).(unhandled) = w.(unhandled).
Proof.
  intros (Hu & Hn & He & Hp & Hlen) Hnobody Ho Hs Hh Hc. run_signup.
  rewrite Hu, Hn, He, Hp. simpl.
  destruct (Z.ltb_spec (Z.of_nat (utf16_length p)) 8); [lia|].
  rewrite Ho. simpl. unfold nobody_matches in Hnobody. rewrite Hnobody. simpl.
  rewrite Hs. simpl. rewrite Hh. simpl. rewrite Hc. simpl. unfold signup_failure.
  destruct (isValidationError error); simpl; [tauto|].
  destruct (bool_decide (code error = Some 11000)); simpl; tauto.
Qed.

(** A 500 comes from nowhere but the last branch of the [catch]: a step of
    the inner chain (the salt, the hash or the create) was rejected with an
    error that is neither a validation error nor a duplicate-key error. *)
Lemma signup_500_only_unexpected BERLIN_BOROUGHS welcomeMessage hash o req w view context :
  w.(sent) = None ->
  (snd (post_signup BERLIN_BOROUGHS welcomeMessage hash o req w)).(sent)
  = Some (Render 500 view context) ->
  exists error,
    signup_chain_error o = Some error
    /\ isValidationError error = false
    /\ code error <> Some 11000
    /\ view = "auth/signup"
    /\ context = [ ("errorMessage", JString (message error)) ].
Proof.
  intros Hfresh. unfold signup_chain_error.
  signup_branches req o; try congruence;
    intros [= <- <-]; exists error; apply bool_decide_eq_false in Hcode; auto.
Qed.

(** Nobody found by username or email: the username and the email are new
    to the collection. *)
Lemma nobody_is_fresh (username email : Field) (us : list User.t) :
  List.find (matches (ByUsernameOrEmail username email)) us = None ->
  (username ∉ map User.username us) /\ (email ∉ map User.email us).
Proof.
  induction us as [|u us IH]; simpl.
  - intros _. split; apply not_elem_of_nil.
  - destruct (Field_eqb (User.username u) username) eqn:Hn; simpl; [discriminate|].
    destruct (Field_eqb (User.email u) email) eqn:He; [discriminate|].
    intros H. destruct (IH H) as [IHn IHe].
    split; rewrite not_elem_of_cons; (split; [|assumption]); intros ->.
    + rewrite Field_eqb_refl in Hn. discriminate.
    + rewrite Field_eqb_refl in He. discriminate.
Qed.

(** Usernames and emails stay unique across any signup, whatever the form
    holds and whatever the collaborators do. *)
Lemma signup_keeps_users_unique BERLIN_BOROUGHS welcomeMessage hash o req w :
  unique_users w.(users) ->
  unique_users (snd (post_signup BERLIN_BOROUGHS welcomeMessage hash o req w)).(users).
Proof.
  intros Huniq.
  signup_branches req o; try assumption;
    destruct (nobody_is_fresh _ _ _ Hfound) as [Hn He];
    destruct Huniq as [Hun Hue];
    unfold unique_users; rewrite !map_app; simpl;
    (split; apply NoDup_app; (repeat split; [assumption| |apply NoDup_singleton]);
     intros x Hx Hx'; apply list_elem_of_singleton in Hx'; subst x; auto).
Qed.

(** C8. A signup submission with the username, the name or the email
    missing (absent or empty) is answered at once with a 400 render of the
    signup view, carrying "Please fill in all required fields." and the
    entered values; the User collection and the sessions are as they were,
    and no collaborator was called: no lookup, no hash, no create. *)
Theorem signup_missing_required_field BERLIN_BOROUGHS welcomeMessage hash o req w :
  truthy (Body.username req.(body)) = false
  \/ truthy (Body.name req.(body)) = false
  \/ truthy (Body.email req.(body)) = false ->
  let r := post_signup BERLIN_BOROUGHS welcomeMessage hash o req w in
  fst r = Resolved tt
  /\ (snd r).(sent)
     = Some (Render 400 "auth/signup"
         [ ("errorMessage", JString "Please fill in all required fields.");
           ("berlinBoroughs", JStrings BERLIN_BOROUGHS);
           ("containsMap", JBool true);
           ("username", js (Body.username req.(body)));
           ("password", js (Body.password req.(body)));
           ("email", js (Body.email req.(body)));
           ("name", js (Body.name req.(body)));
           ("berlinBorough", js (Body.berlinBorough req.(body)));
           ("latitude", js (Body.latitude req.(body)));
           ("longitude", js (Body.longitude req.(body))) ])
  /\ (snd r).(users) = w.(users)
  /\ (snd r).(sessions) = w.(sessions)
  /\ (snd r).(calls) = w.(calls)
  /\ (snd r).(unhandled) = w.(unhandled).
Proof.
  intros H r. subst r.
  rewrite (signup_required_fields _ _ _ _ _ _ H). simpl. tauto.
Qed.

Lemma signup_missing_required_field_witness :
  let req := {| sessionID := "s1";
                body := form (Some "alice") (Some "correct horse")
                             (Some "alice@example.org") None |} in
  let r := post_signup sample_boroughs sample_welcome sample_hash no_faults req
             (incoming [] ∅) in
  fst r = Resolved tt
  /\ (snd r).(sent)
     = Some (Render 400 "auth/signup"
         [ ("errorMessage", JString "Please fill in all required fields.");
           ("berlinBoroughs", JStrings sample_boroughs);
           ("containsMap", JBool true);
           ("username", JString "alice");
           ("password", JString "correct horse");
           ("email", JString "alice@example.org");
           ("name", JUndefined);
           ("berlinBorough", JUndefined);
           ("latitude", JUndefined);
           ("longitude", JUndefined) ])
  /\ (snd r).(users) = []
  /\ (snd r).(sessions) = ∅
  /\ (snd r).(calls) = []
  /\ (snd r).(unhandled) = [].
Proof.
  intros req.
  apply (signup_missing_required_field sample_boroughs sample_welcome sample_hash
           no_faults req (incoming [] ∅)).
  right. left. reflexivity.
Defined.

(** C7. A signup submission that passes validation (username, name and
    email present, the password of at least 8 code units, as
    [password.length] counts them) and whose uniqueness lookup finds nobody,
    the salt, the hash and the create going through: the password is hashed
    under the salt drawn with [saltRounds]; the stored document carries that
    hash in its password field, the coordinates [longitude, latitude] under
    a "Point" location, and the default profile picture; the session of the
    request is bound to the stored user; the welcome mail is sent to the
    user's address and its outcome is not waited for (a failed send leaves
    an unhandled rejection and changes nothing else); the response is a
    redirect to "/". *)
Theorem signup_creates_user BERLIN_BOROUGHS welcomeMessage hash o req w p :
  passes_validation req p ->
  nobody_matches req w ->
  o.(findOne_error) = None ->
  o.(genSalt_error) = None ->
  o.(hash_error) = None ->
  o.(create_error) = None ->
  let user :=
    {| User.username := Body.username req.(body);
       User.password := hash p o.(salt);
       User.email := Body.email req.(body);
       User.name := Body.name req.(body);
       User.berlinBorough := Body.berlinBorough req.(body);
       User.location :=
         {| Location.type := "Point";
            Location.coordinates :=
              [Body.longitude req.(body); Body.latitude req.(body)] |};
       User.profilePicture := "/images/default-profile-picture.png" |} in
  let r := post_signup BERLIN_BOROUGHS welcomeMessage hash o req w in
  fst r = Resolved tt
  /\ (snd r).(sent) = Some (Redirect "/")
  /\ (snd r).(users) = (w.(users) ++ [user])%list
  /\ (snd r).(sessions) !! req.(sessionID) = Some (Session.mk (Some user))
  /\ (snd r).(calls)
     = (w.(calls) ++
        [ FindOne (ByUsernameOrEmail (Body.username req.(body)) (Body.email req.(body)));
          GenSalt saltRounds;
          Hash p o.(salt);
          Create user;
          SendMail (welcome_mail welcomeMessage (Body.email req.(body))) ])%list
  /\ (snd r).(unhandled)
     = (w.(unhandled) ++
        match o.(sendMail_error) with Some e => [e] | None => [] end)%list.
Proof.
  intros Hvalid Hnobody Ho Hs Hh Hc user r.
  destruct (signup_created BERLIN_BOROUGHS welcomeMessage hash o req w p
              Hvalid Hnobody Ho Hs Hh Hc)
    as (Hr & Hsent & Husers & Hsessions & Hcalls & Hunhandled & _).
  subst r. rewrite Hsessions, lookup_insert_eq. tauto.
Qed.

Lemma signup_creates_user_witness :
  let req := {| sessionID := "s1"; body := alice_form |} in
  let r := post_signup sample_boroughs sample_welcome sample_hash no_faults req
             (incoming [] ∅) in
  fst r = Resolved tt
  /\ (snd r).(sent) = Some (Redirect "/")
  /\ (snd r).(users) = [alice]
  /\ (snd r).(sessions) !! "s1" = Some (Session.mk (Some alice))
  /\ (snd r).(calls)
     = [ FindOne (ByUsernameOrEmail (Some "alice") (Some "alice@example.org"));
         GenSalt 10;
         Hash "correct horse" "$2a$10$N9qo8uLOickgx2ZMRZoMye";
         Create alice;
         SendMail (welcome_mail sample_welcome (Some "alice@example.org")) ]
  /\ (snd r).(unhandled) = [].
Proof.
  intros req.
  apply (signup_creates_user sample_boroughs sample_welcome sample_hash no_faults
           req (incoming [] ∅) "correct horse").
  - repeat split; try reflexivity. vm_compute. discriminate.
  - reflexivity.
  - reflexivity.
  - reflexivity.
  - reflexivity.
  - reflexivity.
Defined.

(** C1. A signup whose username matches a stored user is claimed to get a
    400 render of the signup view with "Username or email already taken".
    With Alice stored, a second signup as "alice" under another email sets
    the status to 400 and then stops: the context object of that render
    names [newsletter], an identifier bound nowhere in the module, so the
    callback throws a ReferenceError that nothing catches and no view is
    rendered. The other half of the claim holds: no second record is
    created. [signup_taken] has the same for every such submission. *)
Theorem signup_taken_username_renders_nothing :
  let req := {| sessionID := "s2";
                body := form (Some "alice") (Some "battery staple")
                             (Some "other@example.org") (Some "Alice Two") |} in
  let r := post_signup sample_boroughs sample_welcome sample_hash no_faults req
             (incoming [alice] ∅) in
  (snd r).(sent) = None
  /\ (snd r).(statusCode) = 400
  /\ (snd r).(unhandled) = [ReferenceError "newsletter is not defined"]
  /\ (snd r).(users) = [alice].
Proof. repeat split; reflexivity. Qed.

(** C2. Every signup and login submission is claimed to end in a rendered
    view or a redirect, validation failures being recovered with a
    re-rendered form. A signup with username, name and email filled in and
    no password field at all ends otherwise: [password.length] throws a
    TypeError out of the handler, with nothing rendered and nothing
    redirected. The login handler tests [!password] before it reads the
    length, the signup handler does not. [signup_password_absent] has the
    same for every such submission, and [login_always_ends] shows the login
    handler free of it. *)
Theorem signup_without_password_throws :
  let req := {| sessionID := "s1";
                body := form (Some "alice") None (Some "alice@example.org")
                             (Some "Alice") |} in
  let r := post_signup sample_boroughs sample_welcome sample_hash no_faults req
             (incoming [] ∅) in
  fst r = Rejected (TypeError "Cannot read properties of undefined (reading 'length')")
  /\ (snd r).(sent) = None
  /\ ~ answered r.
Proof.
  repeat split; try reflexivity.
  intros (Hr & _). discriminate Hr.
Qed.

(** C6. A create rejected with the duplicate-key error (code 11000) is
    claimed to be rendered back to the signup view as a 400. The status is
    400, but the view rendered is "signup", where the signup form, and every
    other branch of the handler, is "auth/signup". That a 500 is rendered
    for no failure but an unexpected one holds, see
    [signup_500_only_unexpected]. *)
Theorem signup_duplicate_key_renders_other_view :
  let req := {| sessionID := "s1"; body := alice_form |} in
  let r := post_signup sample_boroughs sample_welcome sample_hash duplicate_key req
             (incoming [] ∅) in
  (snd r).(sent)
  = Some (Render 400 "signup"
      [ ("errorMessage", JString "Username and email need to be unique. The username/email you entered is already in use.") ])
  /\ (snd (get_signup sample_boroughs req (incoming [] ∅))).(sent)
     = Some (Render 200 "auth/signup"
         [ ("berlinBoroughs", JStrings sample_boroughs); ("containsMap", JBool true) ]).
Proof. split; reflexivity. Qed.

(** The empty string in place of a value: the cases that hold. An empty
    username, name or email takes the required-fields branch, as an absent
    one does; an empty signup password takes the length branch; an empty
    login password takes the first branch of the login handler, as an
    absent one does. None of them calls a collaborator, stores a user or
    binds a session. *)
Lemma empty_fields_turned_down BERLIN_BOROUGHS welcomeMessage hash compare o req w :
  (Body.username req.(body) = Some "" \/ Body.name req.(body) = Some ""
   \/ Body.email req.(body) = Some "" ->
   post_signup BERLIN_BOROUGHS welcomeMessage hash o req w
   = (Resolved tt,
      set_sent
        (Render 400 "auth/signup"
           (signup_echo BERLIN_BOROUGHS "Please fill in all required fields." req))
        (set_statusCode 400 w)))
  /\ (truthy (Body.username req.(body)) = true ->
      truthy (Body.name req.(body)) = true ->
      truthy (Body.email req.(body)) = true ->
      Body.password req.(body) = Some "" ->
      post_signup BERLIN_BOROUGHS welcomeMessage hash o req w
      = (Resolved tt,
         set_sent
           (Render 400 "auth/signup"
              (signup_echo BERLIN_BOROUGHS
                 "Your password needs to be at least 8 characters long." req))
           (set_statusCode 400 w)))
  /\ (Body.password req.(body) = Some "" ->
      post_login compare o req w
      = (Resolved tt,
         set_sent
           (Render 400 "auth/login"
              [ ("errorMessage", JString "Please provide your username and password.") ])
           (set_statusCode 400 w))).
Proof.
  split; [|split].
  - intros H. apply signup_required_fields.
    destruct H as [H|[H|H]]; rewrite H; simpl; auto.
  - intros Hu Hn He Hp.
    apply (signup_password_short _ _ _ _ _ _ "" Hu Hn He Hp). reflexivity.
  - intros Hp. run_login. rewrite Hp. reflexivity.
Qed.

(** C10. Empty form values are claimed to behave exactly as absent ones.
    For the password of a signup they do not: with username, name and email
    filled in, the empty password gets the 400 render with the length
    message, the absent password gets a TypeError thrown out of the handler
    and no response. [empty_fields_turned_down] has the cases of the claim
    that hold. *)
Theorem signup_empty_password_differs_from_absent :
  let empty := {| sessionID := "s1";
                  body := form (Some "alice") (Some "") (Some "alice@example.org")
                               (Some "Alice") |} in
  let absent := {| sessionID := "s1";
                   body := form (Some "alice") None (Some "alice@example.org")
                                (Some "Alice") |} in
  let signup := post_signup sample_boroughs sample_welcome sample_hash no_faults in
  (snd (signup empty (incoming [] ∅))).(sent)
  = Some (Render 400 "auth/signup"
      (signup_echo sample_boroughs
         "Your password needs to be at least 8 characters long." empty))
  /\ fst (signup empty (incoming [] ∅)) = Resolved tt
  /\ (snd (signup absent (incoming [] ∅))).(sent) = None
  /\ fst (signup absent (incoming [] ∅))
     = Rejected (TypeError "Cannot read properties of undefined (reading 'length')").
Proof. repeat split; reflexivity. Qed.

(** ** Signup, then login *)

(** A well-formed login whose password matches the stored hash: the user
    found is bound to the session, whole, and the response is a redirect. *)
Lemma login_matches compare o req w user p :
  truthy (Body.username req.(body)) = true ->
  Body.password req.(body) = Some p ->
  8 <= Z.of_nat (utf16_length p) ->
  o.(findOne_error) = None ->
  o.(compare_error) = None ->
  List.find (matches (ByUsername (Body.username req.(body)))) w.(users) = Some user ->
  compare p (User.password user) = true ->
  let r := post_login compare o req w in
  fst r = Resolved tt
  /\ (snd r).(sent) = Some (Redirect "/")
  /\ (snd r).(sessions) = <[req.(sessionID) := Session.mk (Some user)]> w.(sessions)
  /\ (snd r).(users) = w.(users)
  /\ (snd r).(unhandled) = w.(unhandled).
Proof.
  intros Hu Hp Hlen Ho Hoc Hfind Hcmp. run_login.
  rewrite Hp, Hu. rewrite (long_is_truthy p Hlen). simpl.
  destruct (Z.ltb_spec (Z.of_nat (utf16_length p)) 8); [lia|].
  rewrite Ho. simpl. rewrite Hfind. simpl. rewrite Hoc. simpl.
  rewrite Hcmp. simpl. tauto.
Qed.

(** After a signup that created a user, a lookup by that username finds the
    document just stored. *)
Lemma created_user_is_found (req : Request) (hashed : string) (us : list User.t) :
  List.find
    (matches (ByUsernameOrEmail (Body.username req.(body)) (Body.email req.(body))))
    us = None ->
  List.find (matches (ByUsername (Body.username req.(body))))
    (us ++ [signup_document req hashed])%list
  = Some (signup_document req hashed).
Proof.
  intros Hnone. rewrite find_app_None by (eapply find_or_None; exact Hnone).
  simpl. rewrite Field_eqb_refl. reflexivity.
Qed.

(** C4, as the code has it. A user signs up with a password [p] of at least
    8 code units, as [password.length] counts them, and the salt, the hash
    and the create go through; a login with that username and [p] then
    redirects to "/" and binds to its session the stored user document as
    it is, password hash included, so that the view context of the
    session's later requests holds every field of the user, the hash among
    them. bcryptjs is taken to accept [p] against the hash it made of
    [p]. *)
Theorem signup_then_login_binds_stored_user
    BERLIN_BOROUGHS welcomeMessage hash compare o1 o2 signup login w p :
  passes_validation signup p ->
  nobody_matches signup w ->
  o1.(findOne_error) = None ->
  o1.(genSalt_error) = None ->
  o1.(hash_error) = None ->
  o1.(create_error) = None ->
  Body.username login.(body) = Body.username signup.(body) ->
  Body.password login.(body) = Some p ->
  o2.(findOne_error) = None ->
  o2.(compare_error) = None ->
  compare p (hash p o1.(salt)) = true ->
  let user :=
    {| User.username := Body.username signup.(body);
       User.password := hash p o1.(salt);
       User.email := Body.email signup.(body);
       User.name := Body.name signup.(body);
       User.berlinBorough := Body.berlinBorough signup.(body);
       User.location :=
         {| Location.type := "Point";
            Location.coordinates :=
              [Body.longitude signup.(body); Body.latitude signup.(body)] |};
       User.profilePicture := "/images/default-profile-picture.png" |} in
  let w1 := snd (post_signup BERLIN_BOROUGHS welcomeMessage hash o1 signup w) in
  let r2 := post_login compare o2 login (incoming w1.(users) w1.(sessions)) in
  fst r2 = Resolved tt
  /\ (snd r2).(sent) = Some (Redirect "/")
  /\ (snd r2).(sessions) !! login.(sessionID) = Some (Session.mk (Some user))
  /\ res_locals_user login (snd r2) = Some user
  /\ exposes_hash (res_locals_user login (snd r2)) (hash p o1.(salt)).
Proof.
  intros Hvalid Hnobody Ho1 Hs1 Hh1 Hc1 Hname Hpass Ho2 Hoc2 Hcmp user w1 r2.
  destruct (signup_created BERLIN_BOROUGHS welcomeMessage hash o1 signup w p
              Hvalid Hnobody Ho1 Hs1 Hh1 Hc1) as (_ & _ & Husers & _).
  fold w1 in Husers.
  destruct Hvalid as (Hu & _ & _ & _ & Hlen).
  assert (List.find (matches (ByUsername (Body.username login.(body))))
            (incoming w1.(users) w1.(sessions)).(users) = Some user) as Hfind.
  { simpl. rewrite Husers, Hname. apply created_user_is_found. exact Hnobody. }
  assert (truthy (Body.username login.(body)) = true) as Hu2
    by (rewrite Hname; exact Hu).
  destruct (login_matches compare o2 login (incoming w1.(users) w1.(sessions))
              user p Hu2 Hpass Hlen Ho2 Hoc2 Hfind Hcmp)
    as (Hr & Hsent & Hsessions & _).
  fold r2 in Hr, Hsent, Hsessions.
  assert ((snd r2).(sessions) !! login.(sessionID) = Some (Session.mk (Some user)))
    as Hbound by (rewrite Hsessions; apply lookup_insert_eq).
  assert (res_locals_user login (snd r2) = Some user) as Hview
    by (unfold res_locals_user; rewrite Hbound; reflexivity).
  repeat split; try assumption.
  exists user. split; [exact Hview|reflexivity].
Qed.

Lemma signup_then_login_binds_stored_user_witness :
  let signup := {| sessionID := "s1"; body := alice_form |} in
  let login := {| sessionID := "s2";
                  body := form (Some "alice") (Some "correct horse") None None |} in
  let w1 := snd (post_signup sample_boroughs sample_welcome sample_hash no_faults
                   signup (incoming [] ∅)) in
  let r2 := post_login sample_compare no_faults login
              (incoming w1.(users) w1.(sessions)) in
  fst r2 = Resolved tt
  /\ (snd r2).(sent) = Some (Redirect "/")
  /\ (snd r2).(sessions) !! "s2" = Some (Session.mk (Some alice))
  /\ res_locals_user login (snd r2) = Some alice
  /\ exposes_hash (res_locals_user login (snd r2))
       "$2a$10$N9qo8uLOickgx2ZMRZoMyecorrect horse".
Proof.
  intros signup login.
  apply (signup_then_login_binds_stored_user sample_boroughs sample_welcome
           sample_hash sample_compare no_faults no_faults signup login
           (incoming [] ∅) "correct horse").
  - repeat split; try reflexivity. vm_compute. discriminate.
  - reflexivity.
  - reflexivity.
  - reflexivity.
  - reflexivity.
  - reflexivity.
  - reflexivity.
  - reflexivity.
  - reflexivity.
  - reflexivity.
  - reflexivity.
Defined.

(** C4, as the specification words it, fails: Alice signs up, then logs in
    with her password; the login redirects home, and the view context of
    her session holds her stored password hash. *)
Lemma round_trip_exposes_hash :
  ~ round_trip_hides_hash sample_boroughs sample_welcome sample_hash sample_compare
      no_faults no_faults
      {| sessionID := "s1"; body := alice_form |}
      {| sessionID := "s2";
         body := form (Some "alice") (Some "correct horse") None None |}
      (incoming [] ∅) "correct horse".
Proof.
  intros (_ & Hhidden). apply Hhidden.
  exists alice. split; [|reflexivity].
  vm_compute. reflexivity.
Qed.

(** ** Logout *)

(** C9. The logout handler asks the session store to destroy the session of
    the request. When the store fails, the response is a 500 render of the
    "auth/logout" view carrying the failure's message. When it succeeds,
    the response is a redirect to "/", the store holds no record at all
    under the session id (not a record without a user), and a later request
    with that session id has no user in its view context. *)
Theorem logout_destroys_session o req w :
  let r := get_logout o req w in
  fst r = Resolved tt
  /\ (snd r).(calls) = (w.(calls) ++ [Destroy req.(sessionID)])%list
  /\ match o.(destroy_error) with
     | Some err =>
         (snd r).(sent)
         = Some (Render 500 "auth/logout" [ ("errorMessage", JString (message err)) ])
     | None =>
         (snd r).(sent) = Some (Redirect "/")
         /\ (snd r).(sessions) = delete req.(sessionID) w.(sessions)
         /\ (snd r).(sessions) !! req.(sessionID) = None
         /\ forall later : Body.t,
              res_locals_user {| sessionID := req.(sessionID); body := later |}
                (incoming (snd r).(users) (snd r).(sessions)) = None
     end.
Proof.
  run_logout. destruct (destroy_error o) as [err|]; simpl.
  - repeat split; reflexivity.
  - repeat split; try reflexivity.
    + apply lookup_delete_eq.
    + intros later. unfold res_locals_user. simpl.
      rewrite lookup_delete_eq. reflexivity.
Qed.

(** The two outcomes of a logout, on a store that holds Alice's session. *)
Example logout_store_down :
  let req := {| sessionID := "s1"; body := form None None None None |} in
  let w := incoming [alice] {[ "s1" := Session.mk (Some alice) ]} in
  (snd (get_logout store_down req w)).(sent)
  = Some (Render 500 "auth/logout" [ ("errorMessage", JString "store unreachable") ])
  /\ res_locals_user req (snd (get_logout store_down req w)) = Some alice.
Proof. split; reflexivity. Qed.

Example logout_done :
  let req := {| sessionID := "s1"; body := form None None None None |} in
  let w := incoming [alice] {[ "s1" := Session.mk (Some alice) ]} in
  res_locals_user req w = Some alice
  /\ (snd (get_logout no_faults req w)).(sent) = Some (Redirect "/")
  /\ res_locals_user req (snd (get_logout no_faults req w)) = None.
Proof. repeat split; reflexivity. Qed.

(** * Further properties of the handlers *)

(** ** Signup *)

(** X1. With username, name and email filled in and a password of fewer
    than 8 code units, as [password.length] counts them, the empty one
    included, the signup handler renders the
    signup view with status 400 and the length message, echoes the entered
    values back, the password among them, and touches neither the User
    collection, nor the sessions, nor any collaborator. *)
Theorem signup_short_password_rejected BERLIN_BOROUGHS welcomeMessage hash o req w p :
  truthy (Body.username req.(body)) = true ->
  truthy (Body.name req.(body)) = true ->
  truthy (Body.email req.(body)) = true ->
  Body.password req.(body) = Some p ->
  Z.of_nat (utf16_length p) < 8 ->
  let r := post_signup BERLIN_BOROUGHS welcomeMessage hash o req w in
  fst r = Resolved tt
  /\ (snd r).(sent)
     = Some (Render 400 "auth/signup"
         [ ("errorMessage",
            JString "Your password needs to be at least 8 characters long.");
           ("berlinBoroughs", JStrings BERLIN_BOROUGHS);
           ("containsMap", JBool true);
           ("username", js (Body.username req.(body)));
           ("password", JString p);
           ("email", js (Body.email req.(body)));
           ("name", js (Body.name req.(body)));
           ("berlinBorough", js (Body.berlinBorough req.(body)));
           ("latitude", js (Body.latitude req.(body)));
           ("longitude", js (Body.longitude req.(body))) ])
  /\ (snd r).(users) = w.(users)
  /\ (snd r).(sessions) = w.(sessions)
  /\ (snd r).(calls) = w.(calls)
  /\ (snd r).(unhandled) = w.(unhandled).
Proof.
  intros Hu Hn He Hp Hlen r. subst r.
  rewrite (signup_password_short _ _ _ _ _ _ p Hu Hn He Hp Hlen).
  unfold signup_echo. rewrite Hp. simpl. tauto.
Qed.

Lemma signup_short_password_rejected_witness :
  let req := {| sessionID := "s1";
                body := form (Some "alice") (Some "pässwör") (Some "alice@example.org")
                             (Some "Alice") |} in
  let r := post_signup sample_boroughs sample_welcome sample_hash no_faults req
             (incoming [] ∅) in
  fst r = Resolved tt
  /\ (snd r).(sent)
     = Some (Render 400 "auth/signup"
         [ ("errorMessage",
            JString "Your password needs to be at least 8 characters long.");
           ("berlinBoroughs", JStrings sample_boroughs);
           ("containsMap", JBool true);
           ("username", JString "alice");
           ("password", JString "pässwör");
           ("email", JString "alice@example.org");
           ("name", JString "Alice");
           ("berlinBorough", JUndefined);
           ("latitude", JUndefined);
           ("longitude", JUndefined) ])
  /\ (snd r).(users) = []
  /\ (snd r).(sessions) = ∅
  /\ (snd r).(calls) = []
  /\ (snd r).(unhandled) = [].
Proof.
  intros req.
  apply (signup_short_password_rejected sample_boroughs sample_welcome sample_hash
           no_faults req (incoming [] ∅) "pässwör"); reflexivity.
Defined.

(** X2. When the uniqueness lookup of a valid signup finds a user, the
    lookup is the only collaborator call the handler makes: no salt, no
    hash, no create, no mail. The User collection and the sessions are as
    they were, nothing is sent, and the ReferenceError of the context object
    is left as an unhandled rejection. *)
Theorem signup_existing_user_stops_after_lookup
    BERLIN_BOROUGHS welcomeMessage hash o req w p found :
  passes_validation req p ->
  o.(findOne_error) = None ->
  List.find
    (matches (ByUsernameOrEmail (Body.username req.(body)) (Body.email req.(body))))
    w.(users) = Some found ->
  let r := post_signup BERLIN_BOROUGHS welcomeMessage hash o req w in
  fst r = Resolved tt
  /\ (snd r).(calls)
     = (w.(calls) ++
        [ FindOne (ByUsernameOrEmail (Body.username req.(body))
                     (Body.email req.(body))) ])%list
  /\ (snd r).(users) = w.(users)
  /\ (snd r).(sessions) = w.(sessions)
  /\ (snd r).(sent) = w.(sent)
  /\ (snd r).(forwarded) = w.(forwarded)
  /\ (snd r).(unhandled)
     = (w.(unhandled) ++ [ReferenceError "newsletter is not defined"])%list.
Proof.
  intros (Hu & Hn & He & Hp & Hlen) Ho Hfound. run_signup.
  rewrite Hu, Hn, He, Hp. simpl.
  destruct (Z.ltb_spec (Z.of_nat (utf16_length p)) 8); [lia|].
  rewrite Ho. simpl. rewrite Hfound. simpl. tauto.
Qed.

Lemma signup_existing_user_stops_after_lookup_witness :
  let req := {| sessionID := "s2";
                body := form (Some "alicia") (Some "battery staple")
                             (Some "alice@example.org") (Some "Alicia") |} in
  let r := post_signup sample_boroughs sample_welcome sample_hash no_faults req
             (incoming [alice] ∅) in
  fst r = Resolved tt
  /\ (snd r).(calls)
     = [ FindOne (ByUsernameOrEmail (Some "alicia") (Some "alice@example.org")) ]
  /\ (snd r).(users) = [alice]
  /\ (snd r).(sessions) = ∅
  /\ (snd r).(sent) = None
  /\ (snd r).(forwarded) = None
  /\ (snd r).(unhandled) = [ReferenceError "newsletter is not defined"].
Proof.
  intros req.
  apply (signup_existing_user_stops_after_lookup sample_boroughs sample_welcome
           sample_hash no_faults req (incoming [alice] ∅) "battery staple" alice).
  - repeat split; try reflexivity. vm_compute. discriminate.
  - reflexivity.
  - reflexivity.
Defined.

(** X3. When the salt and the hash resolve and [User.create] rejects, the
    [catch] of the signup handler
    renders by the kind of error: a validation error as a 400 of
    "auth/signup" with the error's own message, an error of code 11000 as a
    400 of "signup" with the fixed in-use message, any other error as a 500
    of "auth/signup" with the error's message. In all three no user is
    stored, no session is bound and no mail is sent: the create is the last
    collaborator call. *)
Theorem signup_create_failure_rendered
    BERLIN_BOROUGHS welcomeMessage hash o req w p error :
  passes_validation req p ->
  nobody_matches req w ->
  o.(findOne_error) = None ->
  o.(genSalt_error) = None ->
  o.(hash_error) = None ->
  o.(create_error) = Some error ->
  let r := post_signup BERLIN_BOROUGHS welcomeMessage hash o req w in
  fst r = Resolved tt
  /\ (snd r).(sent)
     = Some
         (if isValidationError error then
            Render 400 "auth/signup" [ ("errorMessage", JString (message error)) ]
          else if bool_decide (code error = Some 11000) then
            Render 400 "signup"
              [ ("errorMessage", JString "Username and email need to be unique. The username/email you entered is already in use.") ]
          else
            Render 500 "auth/signup" [ ("errorMessage", JString (message error)) ])
  /\ (snd r).(users) = w.(users)
  /\ (snd r).(sessions) = w.(sessions)
  /\ (snd r).(calls)
     = (w.(calls) ++
        [ FindOne (ByUsernameOrEmail (Body.username req.(body)) (Body.email req.(body)));
          GenSalt 10;
          Hash p o.(salt);
          Create (signup_document req (hash p o.(salt))) ])%list
  /\ (snd r).(unhandled) = w.(unhandled).
Proof.
  intros (Hu & Hn & He & Hp & Hlen) Hnobody Ho Hs Hh Hc. run_signup.
  rewrite Hu, Hn, He, Hp. simpl.
  destruct (Z.ltb_spec (Z.of_nat (utf16_length p)) 8); [lia|].
  rewrite Ho. simpl. unfold nobody_matches in Hnobody. rewrite Hnobody. simpl.
  rewrite Hs. simpl. rewrite Hh. simpl. rewrite Hc. simpl.
  destruct (isValidationError error); simpl;
    [|destruct (bool_decide (code error = Some 11000)); simpl];
    rewrite <- !app_assoc; simpl; tauto.
Qed.

Lemma signup_create_failure_rendered_witness :
  let req := {| sessionID := "s1"; body := alice_form |} in
  let r := post_signup sample_boroughs sample_welcome sample_hash invalid_document
             req (incoming [] ∅) in
  fst r = Resolved tt
  /\ (snd r).(sent)
     = Some (Render 400 "auth/signup"
         [ ("errorMessage", JString "User validation failed") ])
  /\ (snd r).(users) = []
  /\ (snd r).(sessions) = ∅
  /\ (snd r).(calls)
     = [ FindOne (ByUsernameOrEmail (Some "alice") (Some "alice@example.org"));
         GenSalt 10;
         Hash "correct horse" "$2a$10$N9qo8uLOickgx2ZMRZoMye";
         Create alice ]
  /\ (snd r).(unhandled) = [].
Proof.
  intros req.
  apply (signup_create_failure_rendered sample_boroughs sample_welcome sample_hash
           invalid_document req (incoming [] ∅) "correct horse"
           (ValidationError "User validation failed")).
  - repeat split; try reflexivity. vm_compute. discriminate.
  - reflexivity.
  - reflexivity.
  - reflexivity.
  - reflexivity.
  - reflexivity.
Defined.

(** X4. A 500 is rendered by the signup handler in one situation only: the
    submission was valid, the lookup found nobody, and a step of the inner
    chain, the salt, the hash or the create, was rejected with an error
    that is neither a validation error nor of code 11000. The view is then
    "auth/signup" and the context the error's message. *)
Theorem signup_500_needs_unexpected_error
    BERLIN_BOROUGHS welcomeMessage hash o req w view context :
  w.(sent) = None ->
  (snd (post_signup BERLIN_BOROUGHS welcomeMessage hash o req w)).(sent)
  = Some (Render 500 view context) ->
  exists error p,
    signup_chain_error o = Some error
    /\ isValidationError error = false
    /\ code error <> Some 11000
    /\ passes_validation req p
    /\ nobody_matches req w
    /\ o.(findOne_error) = None
    /\ view = "auth/signup"
    /\ context = [ ("errorMessage", JString (message error)) ].
Proof.
  intros Hfresh. unfold signup_chain_error.
  signup_branches req o; try congruence;
    intros [= <- <-]; exists error, p;
    apply bool_decide_eq_false in Hcode;
    unfold passes_validation, nobody_matches; repeat split; auto.
Qed.

Lemma signup_500_needs_unexpected_error_witness :
  exists error p,
    signup_chain_error hash_down = Some error
    /\ isValidationError error = false
    /\ code error <> Some 11000
    /\ passes_validation {| sessionID := "s1"; body := alice_form |} p
    /\ nobody_matches {| sessionID := "s1"; body := alice_form |} (incoming [] ∅)
    /\ hash_down.(findOne_error) = None
    /\ "auth/signup" = "auth/signup"
    /\ [ ("errorMessage", JString "Illegal arguments: object, string") ]
       = [ ("errorMessage", JString (message error)) ].
Proof.
  apply (signup_500_needs_unexpected_error sample_boroughs sample_welcome sample_hash
           hash_down {| sessionID := "s1"; body := alice_form |} (incoming [] ∅)
           "auth/signup"
           [ ("errorMessage", JString "Illegal arguments: object, string") ]).
  - reflexivity.
  - reflexivity.
Defined.

(** The login and logout handlers never write to the User collection. *)
Lemma login_users_unchanged compare o req w :
  (snd (post_login compare o req w)).(users) = w.(users).
Proof. login_branches compare req o; reflexivity. Qed.

Lemma logout_users_unchanged o req w :
  (snd (get_logout o req w)).(users) = w.(users).
Proof. run_logout. destruct (destroy_error o); reflexivity. Qed.

(** X5. Unique usernames and unique emails survive every handler served on
    its own. If no two stored users share a username and no two share an
    email when a request arrives, and nothing else writes the collection
    while the request is served, the same holds when its handler is done,
    whatever the form holds and whatever the collaborators answer. The
    signup handler rests this on the lookup it made: for two signups served
    at once it keeps no such guarantee of its own. *)
Theorem handlers_keep_users_unique
    BERLIN_BOROUGHS welcomeMessage hash compare o req w :
  unique_users w.(users) ->
  unique_users (snd (post_signup BERLIN_BOROUGHS welcomeMessage hash o req w)).(users)
  /\ unique_users (snd (post_login compare o req w)).(users)
  /\ unique_users (snd (get_logout o req w)).(users).
Proof.
  intros Huniq. split; [|split].
  - apply signup_keeps_users_unique. exact Huniq.
  - rewrite login_users_unchanged. exact Huniq.
  - rewrite logout_users_unchanged. exact Huniq.
Qed.

Lemma handlers_keep_users_unique_witness :
  let req := {| sessionID := "s2";
                body := form (Some "bob") (Some "battery staple")
                             (Some "bob@example.org") (Some "Bob") |} in
  let w := incoming [alice] ∅ in
  unique_users (snd (post_signup sample_boroughs sample_welcome sample_hash
                       no_faults req w)).(users)
  /\ unique_users (snd (post_login sample_compare no_faults req w)).(users)
  /\ unique_users (snd (get_logout no_faults req w)).(users).
Proof.
  intros req w.
  apply (handlers_keep_users_unique sample_boroughs sample_welcome sample_hash
           sample_compare no_faults req w).
  split; simpl; apply NoDup_singleton.
Defined.

(** X6. When the uniqueness lookup of a valid signup rejects, the handler
    answers nothing: no view is rendered, no redirect is sent, the error is
    not handed to [next], and the rejection is left unhandled. The [catch]
    of the handler sits on the inner chain and does not see it. Nothing is
    stored and no session is bound. *)
Theorem signup_lookup_failure_unhandled
    BERLIN_BOROUGHS welcomeMessage hash o req w p e :
  passes_validation req p ->
  o.(findOne_error) = Some e ->
  let r := post_signup BERLIN_BOROUGHS welcomeMessage hash o req w in
  fst r = Resolved tt
  /\ (snd r).(sent) = w.(sent)
  /\ (snd r).(statusCode) = w.(statusCode)
  /\ (snd r).(forwarded) = w.(forwarded)
  /\ (snd r).(unhandled) = (w.(unhandled) ++ [e])%list
  /\ (snd r).(users) = w.(users)
  /\ (snd r).(sessions) = w.(sessions).
Proof.
  intros (Hu & Hn & He & Hp & Hlen) Ho. run_signup.
  rewrite Hu, Hn, He, Hp. simpl.
  destruct (Z.ltb_spec (Z.of_nat (utf16_length p)) 8); [lia|].
  rewrite Ho. simpl. tauto.
Qed.

Lemma signup_lookup_failure_unhandled_witness :
  let req := {| sessionID := "s1"; body := alice_form |} in
  let r := post_signup sample_boroughs sample_welcome sample_hash lookup_down req
             (incoming [] ∅) in
  fst r = Resolved tt
  /\ (snd r).(sent) = None
  /\ (snd r).(statusCode) = 200
  /\ (snd r).(forwarded) = None
  /\ (snd r).(unhandled) = [Error "connection lost"]
  /\ (snd r).(users) = []
  /\ (snd r).(sessions) = ∅.
Proof.
  intros req.
  apply (signup_lookup_failure_unhandled sample_boroughs sample_welcome sample_hash
           lookup_down req (incoming [] ∅) "correct horse" (Error "connection lost")).
  - repeat split; try reflexivity. vm_compute. discriminate.
  - reflexivity.
Defined.

(** X7. A signup is all or nothing. Either the User collection and the
    sessions are exactly as before and the response is not the redirect to
    "/"; or the submission was valid, one document was appended to the
    collection with the hash of the submitted password, that same document
    is bound to the session of the request, and the response is the
    redirect. *)
Theorem signup_all_or_nothing BERLIN_BOROUGHS welcomeMessage hash o req w :
  w.(sent) = None ->
  let r := post_signup BERLIN_BOROUGHS welcomeMessage hash o req w in
  ((snd r).(users) = w.(users)
   /\ (snd r).(sessions) = w.(sessions)
   /\ (snd r).(sent) <> Some (Redirect "/"))
  \/ (exists p,
        passes_validation req p
        /\ (snd r).(users)
           = (w.(users) ++ [signup_document req (hash p o.(salt))])%list
        /\ (snd r).(sessions)
           = <[req.(sessionID) :=
                 Session.mk (Some (signup_document req (hash p o.(salt))))]>
               w.(sessions)
        /\ (snd r).(sent) = Some (Redirect "/")).
Proof.
  intros Hfresh.
  signup_branches req o;
    try (left; repeat split; try reflexivity; congruence);
    right; exists p; unfold passes_validation; repeat split; auto.
Qed.

Lemma signup_all_or_nothing_witness :
  let req := {| sessionID := "s1"; body := alice_form |} in
  let r := post_signup sample_boroughs sample_welcome sample_hash no_faults req
             (incoming [] ∅) in
  ((snd r).(users) = []
   /\ (snd r).(sessions) = ∅
   /\ (snd r).(sent) <> Some (Redirect "/"))
  \/ (exists p,
        passes_validation req p
        /\ (snd r).(users)
           = ([] ++ [signup_document req (sample_hash p no_faults.(salt))])%list
        /\ (snd r).(sessions)
           = <[ "s1" :=
                 Session.mk (Some (signup_document req
                                     (sample_hash p no_faults.(salt))))]> ∅
        /\ (snd r).(sent) = Some (Redirect "/")).
Proof.
  intros req.
  apply (signup_all_or_nothing sample_boroughs sample_welcome sample_hash no_faults
           req (incoming [] ∅)).
  reflexivity.
Defined.

(** X8. The signup handler sends the welcome mail exactly when it creates a
    user, once, to the email of the user created: either the collection and
    the mails sent are as before, or one user was appended and one mail
    added, addressed to that user. *)
Theorem signup_mails_created_user BERLIN_BOROUGHS welcomeMessage hash o req w :
  let r := post_signup BERLIN_BOROUGHS welcomeMessage hash o req w in
  ((snd r).(users) = w.(users) /\ mails (snd r) = mails w)
  \/ (exists user,
        (snd r).(users) = (w.(users) ++ [user])%list
        /\ mails (snd r)
           = (mails w ++ [welcome_mail welcomeMessage (User.email user)])%list).
Proof.
  unfold mails.
  signup_branches req o;
    try (left; split; [reflexivity|];
         rewrite ?omap_app; simpl; rewrite ?app_nil_r; reflexivity);
    right; eexists; (split; [reflexivity|]);
    rewrite !omap_app; simpl; rewrite ?app_nil_r; reflexivity.
Qed.

(** While the lookup of a signup finds somebody, the signup stores nothing
    and binds nothing, whatever else the form holds and whatever the
    collaborators do. *)
Lemma signup_found_changes_nothing BERLIN_BOROUGHS welcomeMessage hash o req w somebody :
  List.find
    (matches (ByUsernameOrEmail (Body.username req.(body)) (Body.email req.(body))))
    w.(users) = Some somebody ->
  let r := post_signup BERLIN_BOROUGHS welcomeMessage hash o req w in
  (snd r).(users) = w.(users) /\ (snd r).(sessions) = w.(sessions).
Proof.
  intros Hsome. signup_branches req o; try (split; reflexivity); congruence.
Qed.

Lemma find_app_last {A} (f : A -> bool) (l : list A) (x : A) :
  f x = true -> exists y, List.find f (l ++ [x])%list = Some y.
Proof.
  intros Hx. induction l as [|a l IH]; simpl.
  - rewrite Hx. eauto.
  - destruct (f a); eauto.
Qed.

(** X9. After a signup has created a user, a second signup under the same
    username, or under the same email, creates nothing, whatever its other
    fields and whatever the collaborators do: the collection still holds
    what it held after the first, and the second request's session is not
    bound. *)
Theorem second_signup_creates_nothing
    BERLIN_BOROUGHS welcomeMessage hash o1 o2 first second w p :
  passes_validation first p ->
  nobody_matches first w ->
  o1.(findOne_error) = None ->
  o1.(genSalt_error) = None ->
  o1.(hash_error) = None ->
  o1.(create_error) = None ->
  Body.username second.(body) = Body.username first.(body)
  \/ Body.email second.(body) = Body.email first.(body) ->
  let w1 := snd (post_signup BERLIN_BOROUGHS welcomeMessage hash o1 first w) in
  let r2 := post_signup BERLIN_BOROUGHS welcomeMessage hash o2 second
              (incoming w1.(users) w1.(sessions)) in
  w1.(users) = (w.(users) ++ [signup_document first (hash p o1.(salt))])%list
  /\ (snd r2).(users) = w1.(users)
  /\ (snd r2).(sessions) = w1.(sessions).
Proof.
  intros Hvalid Hnobody Ho1 Hs1 Hh1 Hc1 Hsame w1 r2.
  destruct (signup_created BERLIN_BOROUGHS welcomeMessage hash o1 first w p
              Hvalid Hnobody Ho1 Hs1 Hh1 Hc1) as (_ & _ & Husers & _).
  fold w1 in Husers. split; [exact Husers|].
  destruct (find_app_last
              (matches (ByUsernameOrEmail (Body.username second.(body))
                          (Body.email second.(body))))
              w.(users) (signup_document first (hash p o1.(salt))))
    as [found Hfound].
  { simpl. destruct Hsame as [-> | ->]; rewrite Field_eqb_refl;
      [reflexivity|apply orb_true_r]. }
  rewrite <- Husers in Hfound.
  exact (signup_found_changes_nothing BERLIN_BOROUGHS welcomeMessage hash o2 second
           (incoming w1.(users) w1.(sessions)) found Hfound).
Qed.

Lemma second_signup_creates_nothing_witness :
  let first := {| sessionID := "s1"; body := alice_form |} in
  let second := {| sessionID := "s2";
                   body := form (Some "alicia") (Some "battery staple")
                                (Some "alice@example.org") (Some "Alicia") |} in
  let w1 := snd (post_signup sample_boroughs sample_welcome sample_hash no_faults
                   first (incoming [] ∅)) in
  let r2 := post_signup sample_boroughs sample_welcome sample_hash no_faults second
              (incoming w1.(users) w1.(sessions)) in
  w1.(users) = [alice]
  /\ (snd r2).(users) = w1.(users)
  /\ (snd r2).(sessions) = w1.(sessions).
Proof.
  intros first second.
  apply (second_signup_creates_nothing sample_boroughs sample_welcome sample_hash
           no_faults no_faults first second (incoming [] ∅) "correct horse").
  - repeat split; try reflexivity. vm_compute. discriminate.
  - reflexivity.
  - reflexivity.
  - reflexivity.
  - reflexivity.
  - reflexivity.
  - right. reflexivity.
Defined.

(** ** Login *)

(** X10. Whatever the form holds and whatever the collaborators do, the
    login handler throws nothing and never writes to the User collection,
    and the only collaborator calls it makes are the lookup and the
    password comparison. It ends in one of three ways: with a response
    sent; with the error of a failed lookup handed to [next]; or, when the
    comparison rejects, with nothing sent and the rejection left unhandled,
    the comparison's promise being neither returned nor caught. *)
Theorem login_reads_only compare o req w :
  let r := post_login compare o req w in
  fst r = Resolved tt
  /\ (snd r).(users) = w.(users)
  /\ (exists added,
        (snd r).(calls) = (w.(calls) ++ added)%list
        /\ forallb reads_only added = true)
  /\ ((is_Some (snd r).(sent) /\ (snd r).(unhandled) = w.(unhandled))
      \/ (exists e,
            o.(findOne_error) = Some e
            /\ (snd r).(forwarded) = Some e
            /\ (snd r).(sent) = w.(sent)
            /\ (snd r).(unhandled) = w.(unhandled))
      \/ (exists e,
            o.(compare_error) = Some e
            /\ (snd r).(unhandled) = (w.(unhandled) ++ [e])%list
            /\ (snd r).(sent) = w.(sent)
            /\ (snd r).(forwarded) = w.(forwarded))).
Proof.
  login_branches compare req o; repeat split; eauto 8;
    first
      [ exists []; rewrite app_nil_r; split; reflexivity
      | eexists [_]; split; reflexivity
      | eexists [_; _]; rewrite <- app_assoc; split; reflexivity ].
Qed.

(** X11. A well-formed login whose lookup rejects hands the error to [next]
    and answers nothing itself: no view, no redirect, no session bound, and
    no password comparison made. *)
Theorem login_lookup_failure_forwarded compare o req w e :
  well_formed_login req ->
  o.(findOne_error) = Some e ->
  let r := post_login compare o req w in
  fst r = Resolved tt
  /\ (snd r).(forwarded) = Some e
  /\ (snd r).(sent) = w.(sent)
  /\ (snd r).(statusCode) = w.(statusCode)
  /\ (snd r).(sessions) = w.(sessions)
  /\ (snd r).(unhandled) = w.(unhandled)
  /\ (snd r).(calls)
     = (w.(calls) ++ [FindOne (ByUsername (Body.username req.(body)))])%list.
Proof.
  intros (Hu & p & Hp & Hlen) Ho. run_login.
  rewrite Hp, Hu. rewrite (long_is_truthy p Hlen). simpl.
  destruct (Z.ltb_spec (Z.of_nat (utf16_length p)) 8); [lia|].
  rewrite Ho. simpl. tauto.
Qed.

Lemma login_lookup_failure_forwarded_witness :
  let req := {| sessionID := "s1";
                body := form (Some "alice") (Some "correct horse") None None |} in
  let r := post_login sample_compare lookup_down req (incoming [alice] ∅) in
  fst r = Resolved tt
  /\ (snd r).(forwarded) = Some (Error "connection lost")
  /\ (snd r).(sent) = None
  /\ (snd r).(statusCode) = 200
  /\ (snd r).(sessions) = ∅
  /\ (snd r).(unhandled) = []
  /\ (snd r).(calls) = [FindOne (ByUsername (Some "alice"))].
Proof.
  intros req.
  apply (login_lookup_failure_forwarded sample_compare lookup_down req
           (incoming [alice] ∅) (Error "connection lost")).
  - split; [reflexivity|]. exists "correct horse". split; [reflexivity|vm_compute; discriminate].
  - reflexivity.
Defined.

(** X24. A well-formed login whose lookup finds a user and whose password
    comparison rejects answers nothing: the comparison's promise is neither
    returned nor caught, so the rejection is left unhandled; it does not
    reach the [catch] of the handler, and [next] is not called. No view is
    rendered, no redirect sent and no session bound. *)
Theorem login_comparison_failure_unhandled compare o req w user p e :
  truthy (Body.username req.(body)) = true ->
  Body.password req.(body) = Some p ->
  8 <= Z.of_nat (utf16_length p) ->
  o.(findOne_error) = None ->
  List.find (matches (ByUsername (Body.username req.(body)))) w.(users) = Some user ->
  o.(compare_error) = Some e ->
  let r := post_login compare o req w in
  fst r = Resolved tt
  /\ (snd r).(sent) = w.(sent)
  /\ (snd r).(statusCode) = w.(statusCode)
  /\ (snd r).(forwarded) = w.(forwarded)
  /\ (snd r).(unhandled) = (w.(unhandled) ++ [e])%list
  /\ (snd r).(sessions) = w.(sessions)
  /\ (snd r).(calls)
     = (w.(calls) ++
        [ FindOne (ByUsername (Body.username req.(body)));
          Compare p (User.password user) ])%list.
Proof.
  intros Hu Hp Hlen Ho Hfind Hoc. run_login.
  rewrite Hp, Hu. rewrite (long_is_truthy p Hlen). simpl.
  destruct (Z.ltb_spec (Z.of_nat (utf16_length p)) 8); [lia|].
  rewrite Ho. simpl. rewrite Hfind. simpl. rewrite Hoc. simpl.
  rewrite <- app_assoc. simpl. tauto.
Qed.

Lemma login_comparison_failure_unhandled_witness :
  let req := {| sessionID := "s1";
                body := form (Some "alice") (Some "correct horse") None None |} in
  let r := post_login sample_compare compare_down req (incoming [alice] ∅) in
  fst r = Resolved tt
  /\ (snd r).(sent) = None
  /\ (snd r).(statusCode) = 200
  /\ (snd r).(forwarded) = None
  /\ (snd r).(unhandled) = [Error "Illegal arguments: object, string"]
  /\ (snd r).(sessions) = ∅
  /\ (snd r).(calls)
     = [ FindOne (ByUsername (Some "alice"));
         Compare "correct horse" (User.password alice) ].
Proof.
  intros req.
  apply (login_comparison_failure_unhandled sample_compare compare_down req
           (incoming [alice] ∅) alice "correct horse"
           (Error "Illegal arguments: object, string")).
  - reflexivity.
  - reflexivity.
  - vm_compute. discriminate.
  - reflexivity.
  - reflexivity.
  - reflexivity.
Defined.

(** X12. The login handler binds a user to a session only on a password
    match: either the sessions are as before, or the form carried a
    password of at least 8 code units (so of at least 8 bytes) that the
    comparison accepts against
    the hash of the first stored user with the submitted username, that
    user is the one bound to the session of the request, and the response
    is the redirect to "/". *)
Theorem login_binds_only_on_match compare o req w :
  let r := post_login compare o req w in
  (snd r).(sessions) = w.(sessions)
  \/ (exists user p,
        Body.password req.(body) = Some p
        /\ 8 <= Z.of_nat (String.length p)
        /\ 8 <= Z.of_nat (utf16_length p)
        /\ List.find (matches (ByUsername (Body.username req.(body)))) w.(users)
           = Some user
        /\ compare p (User.password user) = true
        /\ (snd r).(sessions)
           = <[req.(sessionID) := Session.mk (Some user)]> w.(sessions)
        /\ (snd r).(sent) = Some (Redirect "/")).
Proof.
  login_branches compare req o; try (left; reflexivity).
  right. exists user, p. repeat split; auto.
  pose proof (utf16_length_le p). lia.
Qed.

(** X13. A login that fails validation is answered before any collaborator
    is called: with the password missing, the username missing, or the
    password of fewer than 8 code units, as [password.length] counts them,
    the response is a 400 render of the login view with one error message,
    and no lookup is made, no comparison made, and no session bound. *)
Theorem login_validation_before_lookup compare o req w :
  truthy (Body.password req.(body)) = false
  \/ truthy (Body.username req.(body)) = false
  \/ (exists p, Body.password req.(body) = Some p
                /\ Z.of_nat (utf16_length p) < 8) ->
  let r := post_login compare o req w in
  fst r = Resolved tt
  /\ (exists msg,
        (snd r).(sent)
        = Some (Render 400 "auth/login" [ ("errorMessage", JString msg) ]))
  /\ (snd r).(calls) = w.(calls)
  /\ (snd r).(sessions) = w.(sessions)
  /\ (snd r).(users) = w.(users).
Proof.
  intros Hinvalid.
  login_branches compare req o; try (repeat split; eauto; fail); exfalso;
    (destruct Hinvalid as [Hf|[Hf|(p' & Hp' & Hshort)]];
     [ rewrite ?Hpassword in Hf; simpl in Hf; rewrite ?Hempty in Hf; discriminate
     | congruence
     | assert (p' = p) by congruence; subst p'; lia ]).
Qed.

Lemma login_validation_before_lookup_witness :
  let req := {| sessionID := "s1";
                body := form (Some "alice") (Some "pässwör") None None |} in
  let r := post_login sample_compare no_faults req (incoming [alice] ∅) in
  fst r = Resolved tt
  /\ (exists msg,
        (snd r).(sent)
        = Some (Render 400 "auth/login" [ ("errorMessage", JString msg) ]))
  /\ (snd r).(calls) = []
  /\ (snd r).(sessions) = ∅
  /\ (snd r).(users) = [alice].
Proof.
  intros req.
  apply (login_validation_before_lookup sample_compare no_faults req
           (incoming [alice] ∅)).
  right. right. exists "pässwör". split; reflexivity.
Defined.

(** ** Sessions across the handlers *)

(** X14. The handlers touch no session but the one of the request: after a
    signup, a login or a logout under one session id, a request under any
    other session id finds in its view context the user it found before. *)
Theorem handlers_leave_other_sessions
    BERLIN_BOROUGHS welcomeMessage hash compare o req w other :
  other.(sessionID) <> req.(sessionID) ->
  res_locals_user other
    (snd (post_signup BERLIN_BOROUGHS welcomeMessage hash o req w))
  = res_locals_user other w
  /\ res_locals_user other (snd (post_login compare o req w))
     = res_locals_user other w
  /\ res_locals_user other (snd (get_logout o req w)) = res_locals_user other w.
Proof.
  intros Hother. unfold res_locals_user. split; [|split].
  - signup_branches req o; try reflexivity;
      rewrite lookup_insert_ne by congruence; reflexivity.
  - login_branches compare req o; try reflexivity.
    rewrite lookup_insert_ne by congruence. reflexivity.
  - run_logout. destruct (destroy_error o); simpl; [reflexivity|].
    rewrite lookup_delete_ne by congruence. reflexivity.
Qed.

Lemma handlers_leave_other_sessions_witness :
  let req := {| sessionID := "s2";
                body := form (Some "bob") (Some "battery staple")
                             (Some "bob@example.org") (Some "Bob") |} in
  let other := {| sessionID := "s1"; body := form None None None None |} in
  let w := incoming [alice] {[ "s1" := Session.mk (Some alice) ]} in
  res_locals_user other
    (snd (post_signup sample_boroughs sample_welcome sample_hash no_faults req w))
  = res_locals_user other w
  /\ res_locals_user other (snd (post_login sample_compare no_faults req w))
     = res_locals_user other w
  /\ res_locals_user other (snd (get_logout no_faults req w))
     = res_locals_user other w.
Proof.
  intros req other w.
  apply (handlers_leave_other_sessions sample_boroughs sample_welcome sample_hash
           sample_compare no_faults req w other).
  simpl. discriminate.
Defined.

(** X15. Login, then logout. After a login with a password of at least 8
    code units that the comparison resolves to accept, the
    session of the request shows the user found; after a logout of that
    session that the store carries out, it shows no user, the store holds
    what it held before the login less any record under that session id,
    and the User collection is what it was. *)
Theorem login_then_logout compare o1 o2 req w user p :
  truthy (Body.username req.(body)) = true ->
  Body.password req.(body) = Some p ->
  8 <= Z.of_nat (utf16_length p) ->
  o1.(findOne_error) = None ->
  o1.(compare_error) = None ->
  List.find (matches (ByUsername (Body.username req.(body)))) w.(users) = Some user ->
  compare p (User.password user) = true ->
  o2.(destroy_error) = None ->
  let w1 := snd (post_login compare o1 req w) in
  let w2 := snd (get_logout o2 req (incoming w1.(users) w1.(sessions))) in
  res_locals_user req w1 = Some user
  /\ res_locals_user req w2 = None
  /\ w2.(sent) = Some (Redirect "/")
  /\ w2.(sessions) = delete req.(sessionID) w.(sessions)
  /\ w2.(users) = w.(users).
Proof.
  intros Hu Hp Hlen Ho1 Hoc1 Hfind Hcmp Ho2 w1 w2.
  destruct (login_matches compare o1 req w user p Hu Hp Hlen Ho1 Hoc1 Hfind Hcmp)
    as (_ & _ & Hsessions & Husers & _).
  fold w1 in Hsessions, Husers.
  subst w2. unfold res_locals_user. run_logout. rewrite Ho2. simpl.
  rewrite Hsessions, Husers, lookup_insert_eq, lookup_delete_eq, delete_insert_eq.
  repeat split; reflexivity.
Qed.

Lemma login_then_logout_witness :
  let req := {| sessionID := "s2";
                body := form (Some "alice") (Some "correct horse") None None |} in
  let w := incoming [alice] ∅ in
  let w1 := snd (post_login sample_compare no_faults req w) in
  let w2 := snd (get_logout no_faults req (incoming w1.(users) w1.(sessions))) in
  res_locals_user req w1 = Some alice
  /\ res_locals_user req w2 = None
  /\ w2.(sent) = Some (Redirect "/")
  /\ w2.(sessions) = delete "s2" ∅
  /\ w2.(users) = [alice].
Proof.
  intros req w.
  apply (login_then_logout sample_compare no_faults no_faults req w alice
           "correct horse"); try reflexivity.
  vm_compute. discriminate.
Defined.

(** X16. A logout that the store fails to carry out logs nobody out: the
    response is the 500 render, and the session still shows the user it
    showed before; the store and the User collection are untouched. *)
Theorem logout_failure_keeps_session o req w err :
  o.(destroy_error) = Some err ->
  let r := get_logout o req w in
  (snd r).(sent)
  = Some (Render 500 "auth/logout" [ ("errorMessage", JString (message err)) ])
  /\ (snd r).(sessions) = w.(sessions)
  /\ res_locals_user req (snd r) = res_locals_user req w
  /\ (snd r).(users) = w.(users).
Proof.
  intros Ho. unfold res_locals_user. run_logout. rewrite Ho. simpl.
  repeat split; reflexivity.
Qed.

Lemma logout_failure_keeps_session_witness :
  let req := {| sessionID := "s1"; body := form None None None None |} in
  let w := incoming [alice] {[ "s1" := Session.mk (Some alice) ]} in
  let r := get_logout store_down req w in
  (snd r).(sent)
  = Some (Render 500 "auth/logout" [ ("errorMessage", JString "store unreachable") ])
  /\ (snd r).(sessions) = w.(sessions)
  /\ res_locals_user req (snd r) = res_locals_user req w
  /\ (snd r).(users) = w.(users).
Proof.
  intros req w.
  apply (logout_failure_keeps_session store_down req w (Error "store unreachable")).
  reflexivity.
Defined.

Lemma sessions_backed_more_users (w w' : World) (added : list User.t) :
  sessions_backed w ->
  w'.(sessions) = w.(sessions) ->
  w'.(users) = (w.(users) ++ added)%list ->
  sessions_backed w'.
Proof.
  intros Hbacked Hs Hu sid s u Hsid Huser.
  rewrite Hs in Hsid. rewrite Hu. apply elem_of_app. left.
  exact (Hbacked sid s u Hsid Huser).
Qed.

(** X17. Every user a session holds is a record of the User collection, and
    the three handlers keep it so: the signup handler binds the document it
    has just stored, the login handler binds a document the lookup found in
    the collection, and the logout handler only drops a session. *)
Theorem handlers_keep_sessions_backed
    BERLIN_BOROUGHS welcomeMessage hash compare o req w :
  sessions_backed w ->
  sessions_backed (snd (post_signup BERLIN_BOROUGHS welcomeMessage hash o req w))
  /\ sessions_backed (snd (post_login compare o req w))
  /\ sessions_backed (snd (get_logout o req w)).
Proof.
  intros Hbacked. split; [|split].
  - signup_branches req o;
      try (apply (sessions_backed_more_users w _ []); simpl;
           rewrite ?app_nil_r; auto; fail);
      intros sid s u; simpl;
      (destruct (decide (sessionID req = sid)) as [<-|Hne];
       [ rewrite lookup_insert_eq; intros [= <-] [= <-];
         apply elem_of_app; right; apply list_elem_of_singleton; reflexivity
       | rewrite lookup_insert_ne by exact Hne; intros Hsid Huser;
         apply elem_of_app; left; exact (Hbacked sid s u Hsid Huser) ]).
  - login_branches compare req o;
      try (apply (sessions_backed_more_users w _ []); simpl;
           rewrite ?app_nil_r; auto; fail).
    intros sid s u; simpl.
    destruct (decide (sessionID req = sid)) as [<-|Hne].
    + rewrite lookup_insert_eq. intros [= <-] [= <-].
      apply list_elem_of_In. exact (proj1 (find_some _ _ Hfound)).
    + rewrite lookup_insert_ne by exact Hne. apply Hbacked.
  - run_logout. destruct (destroy_error o); simpl.
    + apply (sessions_backed_more_users w _ []); simpl; rewrite ?app_nil_r; auto.
    + intros sid s u. simpl. rewrite lookup_delete_Some. intros [_ Hsid].
      exact (Hbacked sid s u Hsid).
Qed.

Lemma handlers_keep_sessions_backed_witness :
  let req := {| sessionID := "s2";
                body := form (Some "alice") (Some "correct horse") None None |} in
  let w := incoming [alice] {[ "s1" := Session.mk (Some alice) ]} in
  sessions_backed
    (snd (post_signup sample_boroughs sample_welcome sample_hash no_faults req w))
  /\ sessions_backed (snd (post_login sample_compare no_faults req w))
  /\ sessions_backed (snd (get_logout no_faults req w)).
Proof.
  intros req w.
  apply (handlers_keep_sessions_backed sample_boroughs sample_welcome sample_hash
           sample_compare no_faults req w).
  intros sid s u Hsid Huser. simpl in Hsid.
  apply lookup_singleton_Some in Hsid as [_ <-].
  injection Huser as <-. apply list_elem_of_singleton. reflexivity.
Defined.

(** * [src/app.js]: [capitalized] *)

Lemma upper_upper (c : ascii) : upper (upper c) = upper c.
Proof. destruct c as [[] [] [] [] [] [] [] []]; reflexivity. Qed.

Lemma lower_lower (c : ascii) : lower (lower c) = lower c.
Proof. destruct c as [[] [] [] [] [] [] [] []]; reflexivity. Qed.

Lemma upper_lower (c : ascii) : upper (lower c) = upper c.
Proof. destruct c as [[] [] [] [] [] [] [] []]; reflexivity. Qed.

Lemma lower_upper (c : ascii) : lower (upper c) = lower c.
Proof. destruct c as [[] [] [] [] [] [] [] []]; reflexivity. Qed.

Lemma upper_not_lower (c : ascii) : is_lower (upper c) = false.
Proof. destruct c as [[] [] [] [] [] [] [] []]; reflexivity. Qed.

Lemma lower_not_upper (c : ascii) : is_upper (lower c) = false.
Proof. destruct c as [[] [] [] [] [] [] [] []]; reflexivity. Qed.

Lemma upper_ascii (c : ascii) :
  (nat_of_ascii c <? 128)%nat = true -> (nat_of_ascii (upper c) <? 128)%nat = true.
Proof. destruct c as [[] [] [] [] [] [] [] []]; intros H; try reflexivity; exact H. Qed.

Lemma lower_ascii (c : ascii) :
  (nat_of_ascii c <? 128)%nat = true -> (nat_of_ascii (lower c) <? 128)%nat = true.
Proof. destruct c as [[] [] [] [] [] [] [] []]; intros H; try reflexivity; exact H. Qed.

Lemma toLowerCase_length (s : string) :
  String.length (toLowerCase s) = String.length s.
Proof. induction s as [|c s IH]; simpl; [reflexivity|rewrite IH; reflexivity]. Qed.

Lemma toLowerCase_ascii (s : string) :
  is_ascii s = true -> is_ascii (toLowerCase s) = true.
Proof.
  induction s as [|c s IH]; simpl; [reflexivity|].
  intros H. apply andb_true_iff in H as [Hc Hs].
  rewrite (lower_ascii c Hc), (IH Hs). reflexivity.
Qed.

Lemma toLowerCase_idem (s : string) : toLowerCase (toLowerCase s) = toLowerCase s.
Proof.
  induction s as [|c s IH]; simpl; [reflexivity|].
  rewrite lower_lower, IH. reflexivity.
Qed.

Lemma toLowerCase_toUpperCase (s : string) :
  toLowerCase (toUpperCase s) = toLowerCase s.
Proof.
  induction s as [|c s IH]; simpl; [reflexivity|].
  rewrite lower_upper, IH. reflexivity.
Qed.

Lemma toLowerCase_no_upper (s : string) : no_upper (toLowerCase s) = true.
Proof.
  induction s as [|c s IH]; simpl; [reflexivity|].
  rewrite lower_not_upper, IH. reflexivity.
Qed.

Lemma capitalized_cons (c : ascii) (rest : string) :
  capitalized (String c rest) = inr (String (upper c) (toLowerCase rest)).
Proof. reflexivity. Qed.

(** X18. [capitalized] on an ASCII string. On the empty string it throws.
    On any other it returns a string of the same length, again ASCII, whose
    first code unit is not a lower-case letter and whose other code units
    are not upper-case letters, and which [capitalized] leaves as it is. *)
Theorem capitalized_result (s : string) :
  is_ascii s = true ->
  match capitalized s with
  | inl _ => s = ""
  | inr t =>
      s <> ""
      /\ String.length t = String.length s
      /\ is_ascii t = true
      /\ match t with
         | EmptyString => False
         | String c rest => is_lower c = false /\ no_upper rest = true
         end
      /\ capitalized t = inr t
  end.
Proof.
  destruct s as [|c rest]; [reflexivity|].
  rewrite capitalized_cons. cbv iota beta. rewrite capitalized_cons. simpl.
  intros H. apply andb_true_iff in H as [Hc Hrest].
  rewrite toLowerCase_length, (upper_ascii c Hc), (toLowerCase_ascii rest Hrest).
  rewrite upper_not_lower, toLowerCase_no_upper, upper_upper, toLowerCase_idem.
  repeat split. discriminate.
Qed.

Lemma capitalized_result_witness :
  match capitalized projectName with
  | inl _ => projectName = ""
  | inr t =>
      projectName <> ""
      /\ String.length t = String.length projectName
      /\ is_ascii t = true
      /\ match t with
         | EmptyString => False
         | String c rest => is_lower c = false /\ no_upper rest = true
         end
      /\ capitalized t = inr t
  end.
Proof. apply (capitalized_result projectName). reflexivity. Defined.

(** X19. [capitalized] does not see the case of its argument: on an ASCII
    string, upper-casing or lower-casing it first gives the same result. *)
Theorem capitalized_ignores_case (s : string) :
  is_ascii s = true ->
  capitalized (toUpperCase s) = capitalized s
  /\ capitalized (toLowerCase s) = capitalized s.
Proof.
  intros _. destruct s as [|c rest]; [split; reflexivity|].
  cbn [toUpperCase toLowerCase]. rewrite !capitalized_cons.
  rewrite upper_upper, upper_lower, toLowerCase_toUpperCase, toLowerCase_idem.
  split; reflexivity.
Qed.

Lemma capitalized_ignores_case_witness :
  capitalized (toUpperCase "house-of-PLANTS") = capitalized "house-of-PLANTS"
  /\ capitalized (toLowerCase "house-of-PLANTS") = capitalized "house-of-PLANTS".
Proof. apply (capitalized_ignores_case "house-of-PLANTS"). reflexivity. Defined.

(** The title the application starts with. *)
Example title_value : title = inr "House-of-plants created with Ironlauncher".
Proof. reflexivity. Qed.

(** * The map script *)

(** X20. [getUserLatLng] changes no input of the page. It returns the value
    of the longitude input followed by the value of the latitude input, and
    it throws exactly when one of the two inputs is not on the page. *)
Theorem getUserLatLng_reads (pg : Page.t) :
  let r := getUserLatLng pg in
  (snd r).(Page.inputs) = pg.(Page.inputs)
  /\ match fst r with
     | Resolved userLocation =>
         map Some userLocation
         = [pg.(Page.inputs) !! "longitude"; pg.(Page.inputs) !! "latitude"]
     | Rejected _ =>
         pg.(Page.inputs) !! "latitude" = None
         \/ pg.(Page.inputs) !! "longitude" = None
     end.
Proof.
  unfold getUserLatLng. simpl.
  destruct (Page.inputs pg !! "latitude") as [userLat|] eqn:Hlat; simpl; [|auto].
  destruct (Page.inputs pg !! "longitude") as [userLng|] eqn:Hlng; simpl; auto.
Qed.

(** X21. Dragging the marker, then reading the position back. On a page
    with both coordinate inputs, [onDragEnd] for a marker position puts the
    position's latitude and longitude into the two inputs and leaves every
    other input alone; [getUserLatLng] on the page so changed returns that
    position, longitude first. *)
Theorem drag_then_read {Num} (toString : Num -> string) (position : LngLat Num)
    (pg : Page.t) :
  is_Some (pg.(Page.inputs) !! "latitude") ->
  is_Some (pg.(Page.inputs) !! "longitude") ->
  let dragged := onDragEnd Num toString position pg in
  fst dragged = Resolved tt
  /\ fst (getUserLatLng (snd dragged))
     = Resolved [toString position.(lng); toString position.(lat)]
  /\ (forall element : string,
        element <> "latitude" -> element <> "longitude" ->
        (snd dragged).(Page.inputs) !! element = pg.(Page.inputs) !! element)
  /\ (snd dragged).(Page.globals) = pg.(Page.globals)
  /\ (snd dragged).(Page.console) = pg.(Page.console).
Proof.
  intros [a Ha] [b Hb]. unfold onDragEnd, getUserLatLng. simpl.
  rewrite Ha. simpl. rewrite lookup_insert_ne by discriminate. rewrite Hb. simpl.
  rewrite lookup_insert_ne by discriminate. rewrite lookup_insert_eq. simpl.
  rewrite lookup_insert_eq. simpl.
  repeat split; try reflexivity.
  intros element Hlat Hlng. rewrite !lookup_insert_ne by congruence. reflexivity.
Qed.

Lemma drag_then_read_witness :
  let position := {| lng := "13.38"; lat := "52.51" |} in
  let dragged := onDragEnd string id position sample_page in
  fst dragged = Resolved tt
  /\ fst (getUserLatLng (snd dragged)) = Resolved ["13.38"; "52.51"]
  /\ (forall element : string,
        element <> "latitude" -> element <> "longitude" ->
        (snd dragged).(Page.inputs) !! element
        = sample_page.(Page.inputs) !! element)
  /\ (snd dragged).(Page.globals) = sample_page.(Page.globals)
  /\ (snd dragged).(Page.console) = sample_page.(Page.console).
Proof.
  intros position.
  apply (drag_then_read id position sample_page).
  - exists "52.52". reflexivity.
  - exists "13.405". reflexivity.
Defined.

(** X22. On a page that has the latitude input and lacks the longitude
    input, both functions throw half way: [getUserLatLng] after it has set
    the global [userLat], with nothing logged, and [onDragEnd] after it has
    overwritten the latitude input. *)
Theorem missing_longitude_input {Num} (toString : Num -> string)
    (position : LngLat Num) (pg : Page.t) (userLat : string) :
  pg.(Page.inputs) !! "latitude" = Some userLat ->
  pg.(Page.inputs) !! "longitude" = None ->
  getUserLatLng pg
  = (Rejected (TypeError "Cannot read properties of null (reading 'value')"),
     set_global "userLat" userLat pg)
  /\ onDragEnd Num toString position pg
     = (Rejected (TypeError "Cannot set properties of null (setting 'value')"),
        set_input "latitude" (toString position.(lat)) pg).
Proof.
  intros Hlat Hlng. unfold getUserLatLng, onDragEnd. simpl.
  rewrite Hlat. simpl. rewrite Hlng.
  rewrite lookup_insert_ne by discriminate. rewrite Hlng. split; reflexivity.
Qed.

Lemma missing_longitude_input_witness :
  let pg := {| Page.inputs := {[ "latitude" := "52.52" ]};
               Page.globals := ∅; Page.console := [] |} in
  let position := {| lng := "13.38"; lat := "52.51" |} in
  getUserLatLng pg
  = (Rejected (TypeError "Cannot read properties of null (reading 'value')"),
     set_global "userLat" "52.52" pg)
  /\ onDragEnd string id position pg
     = (Rejected (TypeError "Cannot set properties of null (setting 'value')"),
        set_input "latitude" "52.51" pg).
Proof.
  intros pg position.
  apply (missing_longitude_input id position pg "52.52"); reflexivity.
Defined.

(** X23. The signup handler stores a position in the order the map script
    reads one. When the form carries the values of the page's latitude and
    longitude inputs and the signup creates a user, the coordinates of the
    stored "Point" are the list [getUserLatLng] returns for that page:
    longitude first, then latitude. *)
Theorem signup_stores_map_position
    BERLIN_BOROUGHS welcomeMessage hash o req w p (pg : Page.t) userLocation :
  passes_validation req p ->
  nobody_matches req w ->
  o.(findOne_error) = None ->
  o.(genSalt_error) = None ->
  o.(hash_error) = None ->
  o.(create_error) = None ->
  Body.latitude req.(body) = pg.(Page.inputs) !! "latitude" ->
  Body.longitude req.(body) = pg.(Page.inputs) !! "longitude" ->
  fst (getUserLatLng pg) = Resolved userLocation ->
  let r := post_signup BERLIN_BOROUGHS welcomeMessage hash o req w in
  exists user,
    (snd r).(users) = (w.(users) ++ [user])%list
    /\ Location.type (User.location user) = "Point"
    /\ Location.coordinates (User.location user) = map Some userLocation.
Proof.
  intros Hvalid Hnobody Ho Hs Hh Hc Hlat Hlng Hread r.
  destruct (signup_created BERLIN_BOROUGHS welcomeMessage hash o req w p
              Hvalid Hnobody Ho Hs Hh Hc) as (_ & _ & Husers & _).
  exists (signup_document req (hash p o.(salt))).
  split; [exact Husers|]. split; [reflexivity|]. simpl.
  rewrite Hlat, Hlng. unfold getUserLatLng in Hread. simpl in Hread.
  destruct (Page.inputs pg !! "latitude") as [userLat|]; [|discriminate].
  destruct (Page.inputs pg !! "longitude") as [userLng|]; [|discriminate].
  simpl in Hread. injection Hread as <-. reflexivity.
Qed.

Lemma signup_stores_map_position_witness :
  let req := {| sessionID := "s1";
                body := {| Body.username := Some "alice";
                           Body.password := Some "correct horse";
                           Body.email := Some "alice@example.org";
                           Body.name := Some "Alice";
                           Body.berlinBorough := Some "Mitte";
                           Body.location := None;
                           Body.latitude := Some "52.52";
                           Body.longitude := Some "13.405" |} |} in
  let r := post_signup sample_boroughs sample_welcome sample_hash no_faults req
             (incoming [] ∅) in
  exists user,
    (snd r).(users) = ([] ++ [user])%list
    /\ Location.type (User.location user) = "Point"
    /\ Location.coordinates (User.location user) = map Some ["13.405"; "52.52"].
Proof.
  intros req.
  apply (signup_stores_map_position sample_boroughs sample_welcome sample_hash
           no_faults req (incoming [] ∅) "correct horse" sample_page
           ["13.405"; "52.52"]).
  - repeat split; try reflexivity. vm_compute. discriminate.
  - reflexivity.
  - reflexivity.
  - reflexivity.
  - reflexivity.
  - reflexivity.
  - reflexivity.
  - reflexivity.
  - reflexivity.
Defined.
